(** * MECHGENZ backend: the website image registry of [main.py]

    A shallow embedding of the handlers under
    [/api/website-images] (listing, upload, metadata update, reset and the
    two delete modes), of the static table [WEBSITE_IMAGES_CONFIG] they
    consult, and of the three pieces of state they touch: the MongoDB
    collection [website_images], the directory [public/images] and the wall
    clock.  The theorems at the end relate the handlers to the registry
    description of the specification.  The utility functions
    [get_client_ip] and [save_uploaded_file], the status update and the
    delete of a contact submission, and the administrator's handlers
    follow, with the properties their code shows. *)

From Stdlib Require Import String Ascii List.
From Stdlib Require Import ZArith.
From stdpp Require Import gmap strings list fin_maps pretty.

Local Open Scope string_scope.

(** ** Data model *)

(** [datetime.now(timezone.utc)]: a reading of the clock, in ticks. *)
Definition datetime := nat.

(** One entry of [WEBSITE_IMAGES_CONFIG]: a dict literal with six fixed
    keys. *)
Record image_config := {
  cfg_name : string;
  cfg_description : string;
  cfg_default_url : string;
  cfg_locations : list string;
  cfg_recommended_size : string;
  cfg_category : string
}.

(** A document of the collection [website_images], without its [_id].
    Every document the handlers insert has exactly these nine fields, and
    every [$set] they issue assigns fields of this list with values of the
    same type, so a record is used instead of an untyped dict. *)
Record image_doc := {
  name : string;
  description : string;
  current_url : string;
  default_url : string;
  locations : list string;
  recommended_size : string;
  category : string;
  created_at : datetime;
  updated_at : datetime
}.

(** The collection: MongoDB keeps [_id] unique, and every [_id] written or
    queried here is the string path parameter [image_id]; the collection is
    a finite map from [_id] to the rest of the document. *)
Abbreviation collection := (gmap string image_doc).

(** A document as the driver hands it out, [_id] included. *)
Record mongo_doc := { _id : string; body : image_doc }.

(** The multipart upload: [file.filename], [file.content_type] (both may be
    [None]) and the bytes behind [file.file]. *)
Record UploadFile := {
  filename : option string;
  content_type : option string;
  file : list Byte.byte
}.

(** [ImageUpdate(BaseModel)]. *)
Record ImageUpdate := { iu_name : string; iu_description : string }.

(** What a request can see and change.  [website_images_collection] is
    [None] when the connection attempt at start-up failed; [fs] maps the
    path of each regular file to its contents. *)
Record world := {
  website_images_collection : option collection;
  fs : gmap string (list Byte.byte);
  clock : datetime
}.

(** A JSON body, as far as the handlers build one: [null], or an object
    whose members are booleans and strings, in the order of the dict
    literal. *)
Inductive scalar :=
| JBool (b : bool)
| JStr (s : string).

Inductive json :=
| JNull
| JObj (members : list (string * scalar)).

(** ** The static catalog *)

(** [WEBSITE_IMAGES_CONFIG], entry by entry in the order of the source. *)
Definition WEBSITE_IMAGES_CONFIG_items : list (string * image_config) :=
  [
    ("logo",
     {| cfg_name := "Company Logo";
        cfg_description := "Main company logo displayed in header and footer";
        cfg_default_url := "/mechgenz-logo.jpg";
        cfg_locations := ["Header"; "Footer"; "Admin Panel"];
        cfg_recommended_size := "200x200px";
        cfg_category := "branding" |});
    ("hero_slide_1",
     {| cfg_name := "Hero Slide 1";
        cfg_description := "First slide in the hero carousel";
        cfg_default_url := "https://images.pexels.com/photos/162553/keys-workshop-mechanic-tools-162553.jpeg?auto=compress&cs=tinysrgb&w=1260&h=750&dpr=1";
        cfg_locations := ["Hero Section"];
        cfg_recommended_size := "1920x1080px";
        cfg_category := "hero" |});
    ("hero_slide_2",
     {| cfg_name := "Hero Slide 2";
        cfg_description := "Second slide in the hero carousel";
        cfg_default_url := "https://images.pexels.com/photos/1148820/pexels-photo-1148820.jpeg?auto=compress&cs=tinysrgb&w=1260&h=750&dpr=1";
        cfg_locations := ["Hero Section"];
        cfg_recommended_size := "1920x1080px";
        cfg_category := "hero" |});
    ("hero_slide_3",
     {| cfg_name := "Hero Slide 3";
        cfg_description := "Third slide in the hero carousel";
        cfg_default_url := "https://images.pexels.com/photos/236705/pexels-photo-236705.jpeg?auto=compress&cs=tinysrgb&w=1260&h=750&dpr=1";
        cfg_locations := ["Hero Section"];
        cfg_recommended_size := "1920x1080px";
        cfg_category := "hero" |});
    ("about_main",
     {| cfg_name := "About Section Main Image";
        cfg_description := "Main image displayed in the about section";
        cfg_default_url := "https://images.pexels.com/photos/1216589/pexels-photo-1216589.jpeg?auto=compress&cs=tinysrgb&w=1260&h=750&dpr=1";
        cfg_locations := ["About Section"];
        cfg_recommended_size := "800x600px";
        cfg_category := "about" |});
    ("mechanical_suppliers",
     {| cfg_name := "Mechanical Suppliers Background";
        cfg_description := "Background image for mechanical suppliers trading category";
        cfg_default_url := "https://images.pexels.com/photos/162553/keys-workshop-mechanic-tools-162553.jpeg?auto=compress&cs=tinysrgb&w=800&h=600&dpr=1";
        cfg_locations := ["Trading Section - Mechanical Suppliers"];
        cfg_recommended_size := "800x600px";
        cfg_category := "trading" |});
    ("electrical_suppliers",
     {| cfg_name := "Electrical Suppliers Background";
        cfg_description := "Background image for electrical suppliers trading category";
        cfg_default_url := "https://images.pexels.com/photos/257736/pexels-photo-257736.jpeg?auto=compress&cs=tinysrgb&w=800&h=600&dpr=1";
        cfg_locations := ["Trading Section - Electrical Suppliers"];
        cfg_recommended_size := "800x600px";
        cfg_category := "trading" |});
    ("plumbing_suppliers",
     {| cfg_name := "Plumbing Suppliers Background";
        cfg_description := "Background image for plumbing suppliers trading category";
        cfg_default_url := "https://images.pexels.com/photos/1216589/pexels-photo-1216589.jpeg?auto=compress&cs=tinysrgb&w=800&h=600&dpr=1";
        cfg_locations := ["Trading Section - Plumbing Suppliers"];
        cfg_recommended_size := "800x600px";
        cfg_category := "trading" |});
    ("fire_fighting_suppliers",
     {| cfg_name := "Fire Fighting Suppliers Background";
        cfg_description := "Background image for fire fighting suppliers trading category";
        cfg_default_url := "https://images.pexels.com/photos/280221/pexels-photo-280221.jpeg?auto=compress&cs=tinysrgb&w=800&h=600&dpr=1";
        cfg_locations := ["Trading Section - Fire Fighting Suppliers"];
        cfg_recommended_size := "800x600px";
        cfg_category := "trading" |});
    ("portfolio_civil_1",
     {| cfg_name := "Civil Structure Project 1";
        cfg_description := "Featured civil structure project image";
        cfg_default_url := "https://images.pexels.com/photos/1216589/pexels-photo-1216589.jpeg?auto=compress&cs=tinysrgb&w=800&h=600&dpr=1";
        cfg_locations := ["Portfolio Section - Civil Structure"];
        cfg_recommended_size := "800x600px";
        cfg_category := "portfolio" |});
    ("portfolio_civil_2",
     {| cfg_name := "Civil Structure Project 2";
        cfg_description := "Featured civil structure project image";
        cfg_default_url := "https://images.pexels.com/photos/162553/keys-workshop-mechanic-tools-162553.jpeg?auto=compress&cs=tinysrgb&w=800&h=600&dpr=1";
        cfg_locations := ["Portfolio Section - Civil Structure"];
        cfg_recommended_size := "800x600px";
        cfg_category := "portfolio" |});
    ("portfolio_road_1",
     {| cfg_name := "Road Infrastructure Project 1";
        cfg_description := "Featured road infrastructure project image";
        cfg_default_url := "https://images.pexels.com/photos/280221/pexels-photo-280221.jpeg?auto=compress&cs=tinysrgb&w=800&h=600&dpr=1";
        cfg_locations := ["Portfolio Section - Road Infrastructure"];
        cfg_recommended_size := "800x600px";
        cfg_category := "portfolio" |});
    ("portfolio_road_2",
     {| cfg_name := "Road Infrastructure Project 2";
        cfg_description := "Featured road infrastructure project image";
        cfg_default_url := "https://images.pexels.com/photos/1202723/pexels-photo-1202723.jpeg?auto=compress&cs=tinysrgb&w=800&h=600&dpr=1";
        cfg_locations := ["Portfolio Section - Road Infrastructure"];
        cfg_recommended_size := "800x600px";
        cfg_category := "portfolio" |});
    ("portfolio_fitout_1",
     {| cfg_name := "Fit Out Project 1";
        cfg_description := "Featured fit out project image";
        cfg_default_url := "https://images.pexels.com/photos/1571460/pexels-photo-1571460.jpeg?auto=compress&cs=tinysrgb&w=800&h=600&dpr=1";
        cfg_locations := ["Portfolio Section - Fit Out"];
        cfg_recommended_size := "800x600px";
        cfg_category := "portfolio" |});
    ("portfolio_fitout_2",
     {| cfg_name := "Fit Out Project 2";
        cfg_description := "Featured fit out project image";
        cfg_default_url := "https://images.pexels.com/photos/1571463/pexels-photo-1571463.jpeg?auto=compress&cs=tinysrgb&w=800&h=600&dpr=1";
        cfg_locations := ["Portfolio Section - Fit Out"];
        cfg_recommended_size := "800x600px";
        cfg_category := "portfolio" |});
    ("portfolio_special_1",
     {| cfg_name := "Special Installation Project 1";
        cfg_description := "Featured special installation project image";
        cfg_default_url := "https://images.pexels.com/photos/1216589/pexels-photo-1216589.jpeg?auto=compress&cs=tinysrgb&w=800&h=600&dpr=1";
        cfg_locations := ["Portfolio Section - Special Installation"];
        cfg_recommended_size := "800x600px";
        cfg_category := "portfolio" |});
    ("portfolio_special_2",
     {| cfg_name := "Special Installation Project 2";
        cfg_description := "Featured special installation project image";
        cfg_default_url := "https://images.pexels.com/photos/162553/keys-workshop-mechanic-tools-162553.jpeg?auto=compress&cs=tinysrgb&w=800&h=600&dpr=1";
        cfg_locations := ["Portfolio Section - Special Installation"];
        cfg_recommended_size := "800x600px";
        cfg_category := "portfolio" |})
  ].

Definition WEBSITE_IMAGES_CONFIG : gmap string image_config :=
  list_to_map WEBSITE_IMAGES_CONFIG_items.

(** ** Library functions on strings and paths *)

(** [s.startswith(p)]. *)
Definition startswith (s p : string) : bool := String.prefix p s.

(** [s.endswith(p)]. *)
Definition endswith (s p : string) : bool :=
  String.prefix (String.rev p) (String.rev s).

(** [s.rfind(c)] for a one-character [c]: the highest index of [c] in [s],
    [-1] when there is none.  [i] is the index of the head of [s]. *)
Fixpoint rfind_from (c : ascii) (s : string) (i : Z) : Z :=
  match s with
  | EmptyString => (-1)%Z
  | String a s' =>
      let r := rfind_from c s' (i + 1)%Z in
      if (0 <=? r)%Z then r
      else if Ascii.eqb a c then i else (-1)%Z
  end.

Definition rfind (s : string) (c : ascii) : Z := rfind_from c s 0%Z.

(** The loop of [genericpath._splitext] that skips the leading dots of the
    last component: [true] when one of the [n] characters from index
    [filenameIndex] on is not a dot. *)
Fixpoint splitext_scan (p : string) (filenameIndex n : nat) : bool :=
  match n with
  | O => false
  | S n' =>
      if bool_decide (String.substring filenameIndex 1 p <> ".") then true
      else splitext_scan p (S filenameIndex) n'
  end.

(** [os.path.splitext(p)] of [posixpath]. *)
Definition os_path_splitext (p : string) : string * string :=
  let sepIndex := rfind p "/"%char in
  let dotIndex := rfind p "."%char in
  if (sepIndex <? dotIndex)%Z
     && splitext_scan p (Z.to_nat (sepIndex + 1))
                      (Z.to_nat (dotIndex - (sepIndex + 1)))
  then (String.substring 0 (Z.to_nat dotIndex) p,
        String.substring (Z.to_nat dotIndex)
                         (String.length p - Z.to_nat dotIndex) p)
  else (p, EmptyString).

(** [os.path.join(a, b)] of [posixpath], for two arguments. *)
Definition os_path_join (a b : string) : string :=
  if startswith b "/" then b
  else if bool_decide (a = EmptyString) || endswith a "/" then a ++ b
  else a ++ "/" ++ b.

(** [s.replace(old, new)] for a non-empty [old]: the occurrences of [old]
    are replaced from left to right, without overlap; [skip] counts the
    characters of a matched occurrence still to be dropped. *)
Fixpoint replace_from (old new : string) (skip : nat) (s : string) : string :=
  match s with
  | EmptyString => EmptyString
  | String a s' =>
      match skip with
      | S k => replace_from old new k s'
      | O =>
          if String.prefix old s
          then new ++ replace_from old new (String.length old - 1) s'
          else String a (replace_from old new 0 s')
      end
  end.

Definition str_replace (s old new : string) : string :=
  replace_from old new 0 s.

(** ** Exceptions and the request monad *)

(** [HTTPException(status_code, detail)], or any other exception [e], kept
    as [str(e)]. *)
Inductive exn :=
| HTTPException (status_code : nat) (detail : string)
| Exception (message : string).

Inductive outcome (A : Type) :=
| Return (a : A)
| Raise (e : exn).
Arguments Return {A} a.
Arguments Raise {A} e.

(** A handler runs in a world and leaves a world, whether it returns or
    raises: nothing is rolled back. *)
Definition M (A : Type) : Type := world -> outcome A * world.

#[global] Instance M_ret : MRet M := fun A a w => (Return a, w).

#[global] Instance M_bind : MBind M := fun A B f m w =>
  match m w with
  | (Return a, w') => f a w'
  | (Raise e, w') => (Raise e, w')
  end.

Definition raise {A} (e : exn) : M A := fun w => (Raise e, w).

(** [str(e)]; starlette prints an [HTTPException] as [status: detail]. *)
Definition str_exn (e : exn) : string :=
  match e with
  | HTTPException status_code detail => pretty status_code ++ ": " ++ detail
  | Exception message => message
  end.

(** [try: body / except HTTPException: raise / except Exception as e:
    raise HTTPException(status_code=500, detail=f"{prefix}{str(e)}")]. *)
Definition try_except {A} (prefix : string) (body : M A) : M A := fun w =>
  match body w with
  | (Raise (Exception message), w') =>
      (Raise (HTTPException 500 (prefix ++ message)), w')
  | r => r
  end.

(** The same without the [except HTTPException: raise] clause. *)
Definition try_except_all {A} (prefix : string) (body : M A) : M A := fun w =>
  match body w with
  | (Raise e, w') => (Raise (HTTPException 500 (prefix ++ str_exn e)), w')
  | r => r
  end.

(** [try: body / except Exception as e: print(...)]. *)
Definition try_warn (body : M unit) : M unit := fun w =>
  match body w with
  | (Raise _, w') => (Return tt, w')
  | r => r
  end.

(** ** The clock and the file system *)

(** [datetime.now(timezone.utc)]: successive readings are successive
    ticks. *)
Definition datetime_now : M datetime := fun w =>
  (Return (clock w),
   {| website_images_collection := website_images_collection w;
      fs := fs w; clock := S (clock w) |}).

Definition set_fs (f : gmap string (list Byte.byte)) (w : world) : world :=
  {| website_images_collection := website_images_collection w;
     fs := f; clock := clock w |}.

(** [c in s] for a one-character [c]. *)
Fixpoint has_char (c : ascii) (s : string) : bool :=
  match s with
  | EmptyString => false
  | String a s' => Ascii.eqb a c || has_char c s'
  end.

(** The length of the longest component of a path, [cur] being the
    length of the component read so far. *)
Fixpoint longest_component_from (cur : nat) (path : string) : nat :=
  match path with
  | EmptyString => cur
  | String a path' =>
      if Ascii.eqb a "/"
      then Nat.max cur (longest_component_from 0 path')
      else longest_component_from (S cur) path'
  end.

(** What [open(path, "wb")] raises on a path it cannot create under the
    directories made at start-up: [ValueError] on an embedded NUL, and
    [OSError] with [ENAMETOOLONG] on a component of more than 255 bytes. *)
Definition open_error (path : string) : option exn :=
  if has_char "000"%char path
  then Some (Exception "embedded null byte")
  else if Nat.ltb 255 (longest_component_from 0 path)
  then Some (Exception ("[Errno 36] File name too long: '" ++ path ++ "'"))
  else None.

(** [with open(path, "wb") as buffer: shutil.copyfileobj(src, buffer)];
    nothing is created when [open] raises. *)
Definition write_file (path : string) (src : list Byte.byte) : M unit :=
  fun w =>
  match open_error path with
  | Some e => (Raise e, w)
  | None => (Return tt, set_fs (<[path := src]> (fs w)) w)
  end.

Definition os_path_exists (path : string) : M bool := fun w =>
  (Return (bool_decide (is_Some (fs w !! path))), w).

(** [os.remove(path)] raises [FileNotFoundError] on a missing path. *)
Definition os_remove (path : string) : M unit := fun w =>
  match fs w !! path with
  | Some _ => (Return tt, set_fs (delete path (fs w)) w)
  | None =>
      (Raise (Exception ("[Errno 2] No such file or directory: '"
                           ++ path ++ "'")), w)
  end.

(** ** The collection [website_images] *)

Definition set_collection (c : collection) (w : world) : world :=
  {| website_images_collection := Some c; fs := fs w; clock := clock w |}.

(** A method called on the global while it is [None] raises
    [AttributeError]. *)
Definition on_collection {A} (method : string)
    (op : collection -> outcome A * collection) : M A := fun w =>
  match website_images_collection w with
  | None =>
      (Raise (Exception ("'NoneType' object has no attribute '"
                           ++ method ++ "'")), w)
  | Some c => let '(r, c') := op c in (r, set_collection c' w)
  end.

(** [website_images_collection.find()]: every document, [_id] included. *)
Definition find : M (list mongo_doc) :=
  on_collection "find" (fun c =>
    (Return ((fun kd => {| _id := kd.1; body := kd.2 |}) <$> map_to_list c),
     c)).

(** [website_images_collection.find_one({"_id": image_id})]. *)
Definition find_one (image_id : string) : M (option mongo_doc) :=
  on_collection "find_one" (fun c =>
    (Return ((fun d => {| _id := image_id; body := d |}) <$> c !! image_id),
     c)).

(** The fields a [$set] of this program assigns. *)
Inductive assignment :=
| set_name (v : string)
| set_description (v : string)
| set_current_url (v : string)
| set_updated_at (v : datetime).

Definition assign (d : image_doc) (a : assignment) : image_doc :=
  match a with
  | set_name v =>
      {| name := v; description := description d;
         current_url := current_url d; default_url := default_url d;
         locations := locations d; recommended_size := recommended_size d;
         category := category d; created_at := created_at d;
         updated_at := updated_at d |}
  | set_description v =>
      {| name := name d; description := v;
         current_url := current_url d; default_url := default_url d;
         locations := locations d; recommended_size := recommended_size d;
         category := category d; created_at := created_at d;
         updated_at := updated_at d |}
  | set_current_url v =>
      {| name := name d; description := description d;
         current_url := v; default_url := default_url d;
         locations := locations d; recommended_size := recommended_size d;
         category := category d; created_at := created_at d;
         updated_at := updated_at d |}
  | set_updated_at v =>
      {| name := name d; description := description d;
         current_url := current_url d; default_url := default_url d;
         locations := locations d; recommended_size := recommended_size d;
         category := category d; created_at := created_at d;
         updated_at := v |}
  end.

Record UpdateResult := { matched_count : nat }.
Record DeleteResult := { deleted_count : nat }.

(** [update_one({"_id": image_id}, {"$set": sets})]. *)
Definition update_one (image_id : string) (sets : list assignment)
  : M UpdateResult :=
  on_collection "update_one" (fun c =>
    match c !! image_id with
    | Some d =>
        (Return {| matched_count := 1 |}, <[image_id := foldl assign d sets]> c)
    | None => (Return {| matched_count := 0 |}, c)
    end).

(** [insert_one(doc)]; the unique index on [_id] rejects a second document
    with the same [_id]. *)
Definition insert_one (doc : mongo_doc) : M unit :=
  on_collection "insert_one" (fun c =>
    match c !! _id doc with
    | Some _ =>
        (Raise (Exception ("E11000 duplicate key error collection: "
                             ++ "MECHGENZ.website_images")), c)
    | None => (Return tt, <[_id doc := body doc]> c)
    end).

(** [delete_one({"_id": image_id})]. *)
Definition delete_one (image_id : string) : M DeleteResult :=
  on_collection "delete_one" (fun c =>
    match c !! image_id with
    | Some _ => (Return {| deleted_count := 1 |}, delete image_id c)
    | None => (Return {| deleted_count := 0 |}, c)
    end).

(** ** The handlers *)

(** [if website_images_collection is None: raise HTTPException(500, ...)],
    the first statement of every handler, outside its [try]. *)
Definition require_collection : M unit := fun w =>
  match website_images_collection w with
  | None => (Raise (HTTPException 500 "Database connection not available"), w)
  | Some _ => (Return tt, w)
  end.

(** [image_id in WEBSITE_IMAGES_CONFIG]. *)
Definition in_config (image_id : string) : bool :=
  bool_decide (is_Some (WEBSITE_IMAGES_CONFIG !! image_id)).

(** [WEBSITE_IMAGES_CONFIG[image_id]], a [KeyError] on a missing key. *)
Definition config_of (image_id : string) : M image_config :=
  match WEBSITE_IMAGES_CONFIG !! image_id with
  | Some config => mret config
  | None => raise (Exception ("'" ++ image_id ++ "'"))
  end.

(** The truth value of an [Optional[str]]: [None] and the empty string are
    false. *)
Definition truthy (o : option string) : bool :=
  match o with
  | Some s => negb (bool_decide (s = EmptyString))
  | None => false
  end.

(** [os.path.splitext(file.filename)[1] if file.filename else ".jpg"]. *)
Definition file_extension (upload : UploadFile) : string :=
  if truthy (filename upload)
  then (os_path_splitext (default EmptyString (filename upload))).2
  else ".jpg".

(** [GET /api/website-images]; the value returned is the dict under the
    key ["images"] of the response. *)
Definition get_website_images : M (gmap string image_doc) :=
  require_collection ;;
  try_except_all "Error fetching images: " (
    cursor ← find;
    mret (foldl (fun (images : gmap string image_doc) image_doc =>
                   <[_id image_doc := body image_doc]> images)
                ∅ cursor)).

(** [POST /api/website-images/{image_id}/upload]; [uuid4] is the string of
    the identifier [uuid.uuid4()] draws for this request. *)
Definition upload_website_image (uuid4 : string) (image_id : string)
    (upload : UploadFile) : M json :=
  require_collection ;;
  try_except "Error uploading image: " (
    if negb (in_config image_id)
    then raise (HTTPException 404 "Image configuration not found")
    else if negb (truthy (content_type upload))
            || negb (startswith (default EmptyString (content_type upload)) "image/")
    then raise (HTTPException 400 "File must be an image")
    else
      let unique_filename := uuid4 ++ file_extension upload in
      let file_path := os_path_join "public/images" unique_filename in
      write_file file_path (file upload) ;;
      let new_url := "/images/" ++ unique_filename in
      existing_image ← find_one image_id;
      match existing_image with
      | Some _ =>
          now ← datetime_now;
          update_one image_id [set_current_url new_url; set_updated_at now] ;;
          mret tt
      | None =>
          config ← config_of image_id;
          created ← datetime_now;
          updated ← datetime_now;
          insert_one
            {| _id := image_id;
               body := {| name := cfg_name config;
                          description := cfg_description config;
                          current_url := new_url;
                          default_url := cfg_default_url config;
                          locations := cfg_locations config;
                          recommended_size := cfg_recommended_size config;
                          category := cfg_category config;
                          created_at := created;
                          updated_at := updated |} |}
      end ;;
      mret (JObj [("success", JBool true);
                  ("message", JStr "Image uploaded successfully");
                  ("new_url", JStr new_url)])).

(** [PUT /api/website-images/{image_id}]. *)
Definition update_website_image (image_id : string) (update_data : ImageUpdate)
  : M json :=
  require_collection ;;
  try_except "Error updating image: " (
    now ← datetime_now;
    result ← update_one image_id
               [set_name (iu_name update_data);
                set_description (iu_description update_data);
                set_updated_at now];
    if bool_decide (matched_count result = 0)
    then raise (HTTPException 404 "Image not found")
    else mret (JObj [("success", JBool true);
                     ("message", JStr "Image updated successfully")])).

(** [DELETE /api/website-images/{image_id}/reset]. *)
Definition reset_website_image (image_id : string) : M json :=
  require_collection ;;
  try_except "Error resetting image: " (
    if negb (in_config image_id)
    then raise (HTTPException 404 "Image configuration not found")
    else
      entry ← config_of image_id;
      let default_url := cfg_default_url entry in
      now ← datetime_now;
      result ← update_one image_id
                 [set_current_url default_url; set_updated_at now];
      if bool_decide (matched_count result = 0)
      then raise (HTTPException 404 "Image not found")
      else mret (JObj [("success", JBool true);
                       ("message", JStr "Image reset to default");
                       ("default_url", JStr default_url)])).

(** The block both delete modes run on an existing document: remove the
    file behind a local [current_url], a failure being printed and
    dropped.  Every stored document has the field, so the default of
    [existing_image.get("current_url", ...)] is never taken. *)
Definition remove_physical_file (existing_image : mongo_doc) : M unit :=
  let current_url := current_url (body existing_image) in
  if startswith current_url "/images/"
  then
    let filename := str_replace current_url "/images/" EmptyString in
    let file_path := os_path_join "public/images" filename in
    found ← os_path_exists file_path;
    if found : bool then try_warn (os_remove file_path) else mret tt
  else mret tt.

(** [DELETE /api/website-images/{image_id}?delete_type=...]. *)
Definition delete_website_image (image_id : string) (delete_type : string)
  : M json :=
  require_collection ;;
  try_except "Error deleting image: " (
    if negb (bool_decide (delete_type ∈ ["image_only"; "complete"]))
    then raise (HTTPException 400
           "Invalid delete_type. Must be 'image_only' or 'complete'")
    else
      existing_image ← find_one image_id;
      if bool_decide (delete_type = "image_only")
      then
        if negb (in_config image_id)
        then raise (HTTPException 404 "Image configuration not found")
        else
          entry ← config_of image_id;
          let default_url := cfg_default_url entry in
          match existing_image with
          | Some existing =>
              remove_physical_file existing ;;
              now ← datetime_now;
              update_one image_id
                [set_current_url default_url; set_updated_at now] ;;
              mret tt
          | None =>
              config ← config_of image_id;
              created ← datetime_now;
              updated ← datetime_now;
              insert_one
                {| _id := image_id;
                   body := {| name := cfg_name config;
                              description := cfg_description config;
                              current_url := default_url;
                              default_url := cfg_default_url config;
                              locations := cfg_locations config;
                              recommended_size := cfg_recommended_size config;
                              category := cfg_category config;
                              created_at := created;
                              updated_at := updated |} |}
          end ;;
          mret (JObj [("success", JBool true);
                      ("message",
                       JStr "Custom image deleted and reset to default");
                      ("action", JStr "image_only");
                      ("default_url", JStr default_url)])
      else if bool_decide (delete_type = "complete")
      then
        match existing_image with
        | Some existing =>
            remove_physical_file existing ;;
            result ← delete_one image_id;
            if bool_decide (0 < deleted_count result)
            then mret (JObj [("success", JBool true);
                             ("message",
                              JStr "Image configuration deleted completely");
                             ("action", JStr "complete")])
            else raise (HTTPException 404 "Image not found in database")
        | None =>
            mret (JObj [("success", JBool true);
                        ("message",
                         JStr "Image configuration was already deleted");
                        ("action", JStr "complete")])
        end
      else mret JNull).

(** ** Reading a response *)

(** [body[key]] of a JSON object. *)
Definition member (key : string) (j : json) : option scalar :=
  match j with
  | JNull => None
  | JObj members => snd <$> List.find (fun kv => String.eqb key (fst kv)) members
  end.

(** The response reports success. *)
Definition succeeded (j : json) : Prop := member "success" j = Some (JBool true).

(** The document stored under [image_id], if the collection is there and
    holds one. *)
Definition record_of (image_id : string) (w : world) : option image_doc :=
  c ← website_images_collection w; c !! image_id.

(** ** The categories handler *)

(** [website_images_collection.distinct("category")]: the values of the
    field over the documents, each once; the order of the answer is the
    server's, here that of the traversal. *)
Definition distinct_category : M (list string) :=
  on_collection "distinct" (fun c =>
    (Return (remove_dups (category <$> (snd <$> map_to_list c))), c)).

(** [GET /api/website-images/categories]; the value returned is the list
    under the key ["categories"] of the response. *)
Definition get_image_categories : M (list string) :=
  require_collection ;;
  try_except_all "Error fetching categories: " distinct_category.

(** ** The utility functions *)

(** [str.lower()] on the ASCII letters, all that the header names used
    here contain. *)
Definition ascii_lower (a : ascii) : ascii :=
  let n := nat_of_ascii a in
  if Nat.leb 65 n && Nat.leb n 90 then ascii_of_nat (n + 32) else a.

Fixpoint str_lower (s : string) : string :=
  match s with
  | EmptyString => EmptyString
  | String a s' => String (ascii_lower a) (str_lower s')
  end.

(** [str.isspace()] of a character of a header value (decoded as
    latin-1): TAB to CR, FS to US, space, NEL and the no-break space. *)
Definition isspace (a : ascii) : bool :=
  let n := nat_of_ascii a in
  (Nat.leb 9 n && Nat.leb n 13) || (Nat.leb 28 n && Nat.leb n 32)
  || Nat.eqb n 133 || Nat.eqb n 160.

(** [s.lstrip()], [s.rstrip()] and [s.strip()]. *)
Fixpoint str_lstrip (s : string) : string :=
  match s with
  | EmptyString => EmptyString
  | String a s' => if isspace a then str_lstrip s' else s
  end.

Fixpoint str_rstrip (s : string) : string :=
  match s with
  | EmptyString => EmptyString
  | String a s' =>
      match str_rstrip s' with
      | EmptyString => if isspace a then EmptyString else String a EmptyString
      | t => String a t
      end
  end.

Definition str_strip (s : string) : string := str_rstrip (str_lstrip s).

(** [s.split(sep)[0]] for a one-character [sep]: the characters before
    the first [sep]. *)
Fixpoint split_first (sep : ascii) (s : string) : string :=
  match s with
  | EmptyString => EmptyString
  | String a s' =>
      if Ascii.eqb a sep then EmptyString else String a (split_first sep s')
  end.

(** [request.client], and the part of a [Request] that [get_client_ip]
    reads: the raw header list, whose names the server has lowercased, and
    the peer address. *)
Record Address := { host : string; port : N }.

Record Request := {
  headers : list (string * string);
  client : option Address
}.

(** [request.headers.get(key)]: the value of the first header whose name
    is [key.lower()]. *)
Definition headers_get (request : Request) (key : string) : option string :=
  snd <$> List.find (fun kv => String.eqb (fst kv) (str_lower key))
                    (headers request).

(** [get_client_ip(request)]. *)
Definition get_client_ip (request : Request) : string :=
  let forwarded := headers_get request "X-Forwarded-For" in
  if truthy forwarded
  then str_strip (split_first ","%char (default EmptyString forwarded))
  else match client request with
       | Some address => host address
       | None => "unknown"
       end.

(** [os.path.getsize(path)], an [OSError] on a missing path. *)
Definition os_path_getsize (path : string) : M nat := fun w =>
  match fs w !! path with
  | Some bytes => (Return (length bytes), w)
  | None =>
      (Raise (Exception ("[Errno 2] No such file or directory: '"
                           ++ path ++ "'")), w)
  end.

(** The dict [save_uploaded_file] returns. *)
Record file_info := {
  original_name : option string;
  saved_name : string;
  file_size : nat;
  fi_content_type : option string
}.

(** [save_uploaded_file(file)]; [uuid4] is the string of the identifier
    [uuid.uuid4()] draws. *)
Definition save_uploaded_file (uuid4 : string) (upload : UploadFile)
  : M file_info :=
  try_except_all "Error saving file: " (
    let file_extension :=
      if truthy (filename upload)
      then (os_path_splitext (default EmptyString (filename upload))).2
      else EmptyString in
    let unique_filename := uuid4 ++ file_extension in
    let file_path := os_path_join "uploads" unique_filename in
    write_file file_path (file upload) ;;
    size ← os_path_getsize file_path;
    mret {| original_name := filename upload;
            saved_name := unique_filename;
            file_size := size;
            fi_content_type := content_type upload |}).

(** ** The other collections *)

(** A value of a field of an admin document: a string or an instant. *)
Inductive bson_value :=
| BStr (s : string)
| BTime (t : datetime).

#[global] Instance bson_value_eq_dec : EqDecision bson_value.
Proof. solve_decision. Defined.

(** A Python dict with string keys, in insertion order. *)
Abbreviation dict := (list (string * bson_value)).

(** [d.get(key)]. *)
Definition dict_get (key : string) (d : dict) : option bson_value :=
  snd <$> List.find (fun kv => String.eqb (fst kv) key) d.

(** [d[key] = v]: in place when the key is there, at the end otherwise. *)
Fixpoint dict_set (key : string) (v : bson_value) (d : dict) : dict :=
  match d with
  | [] => [(key, v)]
  | (k, x) :: d' =>
      if String.eqb k key then (k, v) :: d' else (k, x) :: dict_set key v d'
  end.

(** [d.pop(key, None)], the value dropped. *)
Definition dict_pop (key : string) (d : dict) : dict :=
  List.filter (fun kv => negb (String.eqb (fst kv) key)) d.

(** A document of [admin_users]: the [ObjectId] the driver generated, as
    its 24-character text, and the other fields in stored order. *)
Record admin_document := { admin_id : string; admin_fields : dict }.

(** The document as [find_one] hands it out after
    [admin["_id"] = str(admin["_id"])]. *)
Definition admin_with_str_id (a : admin_document) : dict :=
  ("_id", BStr (admin_id a)) :: admin_fields a.

(** A document of [contact_submissions] without its [_id], as
    [submit_contact_form] builds it; [updated_at] is added by the first
    status update. *)
Record submission := {
  sub_name : string;
  sub_phone : string;
  sub_email : string;
  sub_message : string;
  uploaded_files : list file_info;
  submitted_at : datetime;
  ip_address : string;
  user_agent : string;
  status : string;
  sub_updated_at : option datetime
}.

(** The pydantic models of the requests. *)
Record StatusUpdate := { su_status : string }.
Record AdminLogin := { al_email : string; al_password : string }.
Record AdminUpdate := {
  au_name : string;
  au_email : string;
  au_currentPassword : option string;
  au_password : option string
}.

(** The whole back end: the world of the image handlers, the process
    environment, and the two other collection globals ([None] when the
    connection attempt failed).  [contact_submissions] is keyed by the text
    of the [_id]; [admin_users] is kept in natural order, since it is
    queried by fields that are not unique. *)
Record backend := {
  site : world;
  environ : gmap string string;
  contact_collection : option (gmap string submission);
  admin_collection : option (list admin_document)
}.

(** [os.getenv("ADMIN_EMAIL", "mechgenz4@gmail.com")] and
    [os.getenv("ADMIN_PASSWORD", "mechgenz4")]. *)
Definition ADMIN_EMAIL (b : backend) : string :=
  default "mechgenz4@gmail.com" (environ b !! "ADMIN_EMAIL").

Definition ADMIN_PASSWORD (b : backend) : string :=
  default "mechgenz4" (environ b !! "ADMIN_PASSWORD").

Definition B (A : Type) : Type := backend -> outcome A * backend.

#[global] Instance B_ret : MRet B := fun A a b => (Return a, b).

#[global] Instance B_bind : MBind B := fun A B f m b =>
  match m b with
  | (Return a, b') => f a b'
  | (Raise e, b') => (Raise e, b')
  end.

Definition b_raise {A} (e : exn) : B A := fun b => (Raise e, b).

(** A computation on the clock and the files, run in the back end. *)
Definition lift {A} (m : M A) : B A := fun b =>
  let '(r, w') := m (site b) in
  (r, {| site := w'; environ := environ b;
         contact_collection := contact_collection b;
         admin_collection := admin_collection b |}).

(** [try_except], [try_except_all] and the swallowing [try] of
    [initialize_admin], on the back end. *)
Definition b_try_except {A} (prefix : string) (body : B A) : B A := fun b =>
  match body b with
  | (Raise (Exception message), b') =>
      (Raise (HTTPException 500 (prefix ++ message)), b')
  | r => r
  end.

Definition b_try_except_all {A} (prefix : string) (body : B A) : B A :=
  fun b =>
  match body b with
  | (Raise e, b') => (Raise (HTTPException 500 (prefix ++ str_exn e)), b')
  | r => r
  end.

Definition b_try_print (body : B unit) : B unit := fun b =>
  match body b with
  | (Raise _, b') => (Return tt, b')
  | r => r
  end.

(** [for x in l: body(x)]. *)
Fixpoint for_each {A} (l : list A) (body : A -> B unit) : B unit :=
  match l with
  | [] => mret tt
  | x :: l' => body x ;; for_each l' body
  end.

Definition set_contact (c : gmap string submission) (b : backend) : backend :=
  {| site := site b; environ := environ b;
     contact_collection := Some c;
     admin_collection := admin_collection b |}.

Definition set_admin (l : list admin_document) (b : backend) : backend :=
  {| site := site b; environ := environ b;
     contact_collection := contact_collection b;
     admin_collection := Some l |}.

Definition on_contact {A} (method : string)
    (op : gmap string submission -> outcome A * gmap string submission)
  : B A := fun b =>
  match contact_collection b with
  | None =>
      (Raise (Exception ("'NoneType' object has no attribute '"
                           ++ method ++ "'")), b)
  | Some c => let '(r, c') := op c in (r, set_contact c' b)
  end.

Definition on_admin {A} (method : string)
    (op : list admin_document -> outcome A * list admin_document)
  : B A := fun b =>
  match admin_collection b with
  | None =>
      (Raise (Exception ("'NoneType' object has no attribute '"
                           ++ method ++ "'")), b)
  | Some l => let '(r, l') := op l in (r, set_admin l' b)
  end.

(** [contact_collection.find_one({"_id": oid})]. *)
Definition contact_find_one (oid : string) : B (option submission) :=
  on_contact "find_one" (fun c => (Return (c !! oid), c)).

(** The fields the status update assigns. *)
Definition set_status_fields (new_status : string) (now : datetime)
    (s : submission) : submission :=
  {| sub_name := sub_name s; sub_phone := sub_phone s;
     sub_email := sub_email s; sub_message := sub_message s;
     uploaded_files := uploaded_files s; submitted_at := submitted_at s;
     ip_address := ip_address s; user_agent := user_agent s;
     status := new_status; sub_updated_at := Some now |}.

(** [contact_collection.update_one({"_id": oid},
    {"$set": {"status": ..., "updated_at": ...}})]. *)
Definition contact_update_status (oid : string) (new_status : string)
    (now : datetime) : B UpdateResult :=
  on_contact "update_one" (fun c =>
    match c !! oid with
    | Some s =>
        (Return {| matched_count := 1 |},
         <[oid := set_status_fields new_status now s]> c)
    | None => (Return {| matched_count := 0 |}, c)
    end).

(** [contact_collection.delete_one({"_id": oid})]. *)
Definition contact_delete_one (oid : string) : B DeleteResult :=
  on_contact "delete_one" (fun c =>
    match c !! oid with
    | Some _ => (Return {| deleted_count := 1 |}, delete oid c)
    | None => (Return {| deleted_count := 0 |}, c)
    end).

(** A query document [{key: value, ...}] matches a document whose fields
    have these values. *)
Definition matches (query : dict) (a : admin_document) : bool :=
  forallb (fun kv => bool_decide (dict_get kv.1 (admin_fields a) = Some kv.2))
          query.

(** [admin_collection.find_one(query)]: the first match in natural
    order. *)
Definition admin_find_one (query : dict) : B (option admin_document) :=
  on_admin "find_one" (fun l => (Return (List.find (matches query) l), l)).

(** [{"$set": fields}] on one document. *)
Definition admin_set (fields : dict) (a : admin_document) : admin_document :=
  {| admin_id := admin_id a;
     admin_fields :=
       foldl (fun d kv => dict_set kv.1 kv.2 d) (admin_fields a) fields |}.

Fixpoint update_first (query fields : dict) (l : list admin_document)
  : option (list admin_document) :=
  match l with
  | [] => None
  | a :: l' =>
      if matches query a then Some (admin_set fields a :: l')
      else cons a <$> update_first query fields l'
  end.

(** [admin_collection.update_one(query, {"$set": fields})]. *)
Definition admin_update_one (query fields : dict) : B UpdateResult :=
  on_admin "update_one" (fun l =>
    match update_first query fields l with
    | Some l' => (Return {| matched_count := 1 |}, l')
    | None => (Return {| matched_count := 0 |}, l)
    end).

(** [admin_collection.insert_one(doc)]; [new_id] is the [ObjectId] the
    driver generates for a document without [_id]. *)
Definition admin_insert_one (new_id : string) (doc : dict) : B unit :=
  on_admin "insert_one" (fun l =>
    if existsb (fun a => String.eqb (admin_id a) new_id) l
    then (Raise (Exception ("E11000 duplicate key error collection: "
                              ++ "MECHGENZ.admin_users")), l)
    else (Return tt,
          (l ++ [{| admin_id := new_id; admin_fields := doc |}])%list)).

(** ** The submission handlers *)

Definition require_contact : B unit := fun b =>
  match contact_collection b with
  | None => (Raise (HTTPException 500 "Database connection not available"), b)
  | Some _ => (Return tt, b)
  end.

(** The loop of [delete_submission] over [submission['uploaded_files']]:
    remove each listed file that exists, a failure being printed and
    dropped. *)
Definition remove_uploaded_files (files : list file_info) : B unit :=
  for_each files (fun file_info =>
    let file_path := os_path_join "uploads" (saved_name file_info) in
    present ← lift (os_path_exists file_path);
    if present : bool then lift (try_warn (os_remove file_path))
    else mret tt).

Section Submissions.

(** [bson.ObjectId(text)]: the identifier, as its canonical text, or
    [None] when the library raises [InvalidId]. *)
Variable parse_ObjectId : string -> option string.

Definition ObjectId (text : string) : B string :=
  match parse_ObjectId text with
  | Some oid => mret oid
  | None =>
      b_raise (Exception ("'" ++ text ++ "' is not a valid ObjectId, it must"
                            ++ " be a 12-byte input or a 24-character hex"
                            ++ " string"))
  end.

(** [PUT /api/submissions/{submission_id}/status]. *)
Definition update_submission_status (submission_id : string)
    (status_update : StatusUpdate) : B json :=
  require_contact ;;
  b_try_except_all "Error updating status: " (
    oid ← ObjectId submission_id;
    now ← lift datetime_now;
    result ← contact_update_status oid (su_status status_update) now;
    if bool_decide (matched_count result = 0)
    then b_raise (HTTPException 404 "Submission not found")
    else mret (JObj [("success", JBool true);
                     ("message", JStr "Status updated successfully")])).

(** [DELETE /api/submissions/{submission_id}]; the guard
    [if submission.get('uploaded_files')] only skips a loop over the empty
    list. *)
Definition delete_submission (submission_id : string) : B json :=
  require_contact ;;
  b_try_except "Error deleting submission: " (
    oid ← ObjectId submission_id;
    found ← contact_find_one oid;
    match found with
    | None => b_raise (HTTPException 404 "Submission not found")
    | Some submission =>
        remove_uploaded_files (uploaded_files submission) ;;
        oid ← ObjectId submission_id;
        result ← contact_delete_one oid;
        if bool_decide (deleted_count result = 0)
        then b_raise (HTTPException 404 "Submission not found")
        else mret (JObj [("success", JBool true);
                         ("message", JStr "Submission deleted successfully")])
    end).

End Submissions.

(** ** The administrator *)

Definition require_admin : B unit := fun b =>
  match admin_collection b with
  | None => (Raise (HTTPException 500 "Database connection not available"), b)
  | Some _ => (Return tt, b)
  end.

(** The two statements [admin.pop("password", None)] and
    [admin["_id"] = str(admin["_id"])] on a found document. *)
Definition without_password (a : admin_document) : dict :=
  admin_with_str_id
    {| admin_id := admin_id a;
       admin_fields := dict_pop "password" (admin_fields a) |}.

(** The bodies the admin handlers answer. *)
Record admin_response := {
  ar_success : bool;
  ar_message : string;
  ar_admin : dict
}.

(** [initialize_admin()]; [new_id] is the identifier the driver would
    generate on insertion. *)
Definition initialize_admin (new_id : string) : B unit := fun b =>
  match admin_collection b with
  | None => (Return tt, b)
  | Some _ =>
      b_try_print (
        existing_admin ← admin_find_one [("email", BStr (ADMIN_EMAIL b))];
        match existing_admin with
        | None =>
            created ← lift datetime_now;
            updated ← lift datetime_now;
            admin_insert_one new_id
              [("name", BStr "MECHGENZ Admin");
               ("email", BStr (ADMIN_EMAIL b));
               ("password", BStr (ADMIN_PASSWORD b));
               ("role", BStr "admin");
               ("created_at", BTime created);
               ("updated_at", BTime updated)]
        | Some _ => mret tt
        end) b
  end.

(** [POST /api/admin/login]. *)
Definition admin_login (login_data : AdminLogin) : B admin_response :=
  require_admin ;;
  b_try_except "Error during login: " (
    admin ← admin_find_one [("email", BStr (al_email login_data));
                            ("password", BStr (al_password login_data))];
    match admin with
    | None => b_raise (HTTPException 401 "Invalid email or password")
    | Some admin =>
        mret {| ar_success := true;
                ar_message := "Login successful";
                ar_admin := without_password admin |}
    end).

(** [GET /api/admin/profile]; the value returned is the dict under the key
    ["admin"] of the response. *)
Definition get_admin_profile : B dict := fun b =>
  (require_admin ;;
   b_try_except "Error fetching profile: " (
     admin ← admin_find_one [("email", BStr (ADMIN_EMAIL b))];
     match admin with
     | None => b_raise (HTTPException 404 "Admin not found")
     | Some admin => mret (without_password admin)
     end)) b.

(** [PUT /api/admin/profile]. *)
Definition update_admin_profile (update_data : AdminUpdate)
  : B admin_response := fun b =>
  (require_admin ;;
   b_try_except "Error updating profile: " (
     admin ← admin_find_one [("email", BStr (ADMIN_EMAIL b))];
     match admin with
     | None => b_raise (HTTPException 404 "Admin not found")
     | Some admin =>
         now ← lift datetime_now;
         let update_fields :=
           [("name", BStr (au_name update_data));
            ("email", BStr (au_email update_data));
            ("updated_at", BTime now)] in
         update_fields ←
           (if truthy (au_password update_data)
               && truthy (au_currentPassword update_data)
            then
              match dict_get "password" (admin_fields admin) with
              | None => b_raise (Exception "'password'")
              | Some stored =>
                  if bool_decide
                       (stored
                        <> BStr (default EmptyString
                                   (au_currentPassword update_data)))
                  then b_raise (HTTPException 400
                                  "Current password is incorrect")
                  else mret (update_fields
                               ++ [("password",
                                    BStr (default EmptyString
                                            (au_password update_data)))])%list
              end
            else mret update_fields);
         result ← admin_update_one [("email", BStr (ADMIN_EMAIL b))]
                    update_fields;
         if bool_decide (matched_count result = 0)
         then b_raise (HTTPException 404 "Admin not found")
         else
           updated_admin ←
             admin_find_one [("email", BStr (au_email update_data))];
           match updated_admin with
           | None =>
               b_raise (Exception
                          "'NoneType' object has no attribute 'pop'")
           | Some updated_admin =>
               mret {| ar_success := true;
                       ar_message := "Profile updated successfully";
                       ar_admin := without_password updated_admin |}
           end
     end)) b.

(** ** Predicates of the statements *)

(** Every record of the collection belongs to a slot of the catalog and
    carries that slot's [default_url], [locations], [recommended_size] and
    [category]. *)
Definition catalog_backed (c : collection) : Prop :=
  forall image_id d,
    c !! image_id = Some d ->
    exists config,
      WEBSITE_IMAGES_CONFIG !! image_id = Some config
      /\ default_url d = cfg_default_url config
      /\ locations d = cfg_locations config
      /\ recommended_size d = cfg_recommended_size config
      /\ category d = cfg_category config.

(** A string that is empty or starts with a character that is not white
    space: what [lstrip] answers. *)
Definition starts_clean (s : string) : Prop :=
  match s with
  | EmptyString => True
  | String a _ => isspace a = false
  end.

(** ** Sample data *)

(** The catalog entry of the slot ["logo"]. *)
Definition logo_config : image_config :=
  {| cfg_name := "Company Logo";
     cfg_description := "Main company logo displayed in header and footer";
     cfg_default_url := "/mechgenz-logo.jpg";
     cfg_locations := ["Header"; "Footer"; "Admin Panel"];
     cfg_recommended_size := "200x200px";
     cfg_category := "branding" |}.

(** A connected, empty collection and an empty [public/images]. *)
Definition empty_world : world :=
  {| website_images_collection := Some ∅; fs := ∅; clock := 0 |}.

Definition png_upload : UploadFile :=
  {| filename := Some "banner.final.png";
     content_type := Some "image/png";
     file := [Byte.x89; Byte.x50; Byte.x4e; Byte.x47] |}.


Definition text_upload : UploadFile :=
  {| filename := Some "notes.txt";
     content_type := Some "text/plain";
     file := [Byte.x68; Byte.x69] |}.

(** The record, the collection and the world a first upload to the slot
    ["logo"] leaves behind. *)
Definition custom_logo_doc : image_doc :=
  {| name := "Company Logo";
     description := "Main company logo displayed in header and footer";
     current_url := "/images/0b5c.png";
     default_url := "/mechgenz-logo.jpg";
     locations := ["Header"; "Footer"; "Admin Panel"];
     recommended_size := "200x200px";
     category := "branding";
     created_at := 0;
     updated_at := 1 |}.

Definition custom_logo_store : collection := {[ "logo" := custom_logo_doc ]}.

Definition custom_logo_world : world :=
  {| website_images_collection := Some custom_logo_store;
     fs := {[ "public/images/0b5c.png" := file png_upload ]};
     clock := 2 |}.

(** A world whose connection attempt failed, with one file on disk. *)
Definition disconnected_world : world :=
  {| website_images_collection := None;
     fs := {[ "public/images/0b5c.png" := file png_upload ]};
     clock := 5 |}.

(** A request that came through two proxies, and a direct one. *)
Definition proxied_request : Request :=
  {| headers := [("user-agent", "curl/8.5");
                 ("x-forwarded-for", " 203.0.113.9 , 10.0.0.2,10.0.0.1")];
     client := Some {| host := "10.0.0.1"; port := 41234%N |} |}.

Definition direct_request : Request :=
  {| headers := [("user-agent", "curl/8.5")];
     client := Some {| host := "198.51.100.7"; port := 50000%N |} |}.

(** A stand-in for the library's parser in the samples: a text of 24
    characters is its own identifier, any other text is invalid. *)
Definition sample_ObjectId (text : string) : option string :=
  if Nat.eqb (String.length text) 24 then Some text else None.

(** A stored submission with two attachments, and a back end that holds
    it, its two files and a third file. *)
Definition sample_submission : submission :=
  {| sub_name := "Ada"; sub_phone := "+974 5550100";
     sub_email := "ada@example.org"; sub_message := "Quote, please";
     uploaded_files :=
       [{| original_name := Some "plan.pdf"; saved_name := "a1.pdf";
           file_size := 2; fi_content_type := Some "application/pdf" |};
        {| original_name := Some "site.png"; saved_name := "b2.png";
           file_size := 4; fi_content_type := Some "image/png" |}];
     submitted_at := 3; ip_address := "203.0.113.9";
     user_agent := "curl/8.5"; status := "new";
     sub_updated_at := None |}.

Definition sample_admin : admin_document :=
  {| admin_id := "65f0a1b2c3d4e5f601234567";
     admin_fields :=
       [("name", BStr "MECHGENZ Admin");
        ("email", BStr "mechgenz4@gmail.com");
        ("password", BStr "mechgenz4");
        ("role", BStr "admin");
        ("created_at", BTime 0);
        ("updated_at", BTime 1)] |}.

Definition sample_backend : backend :=
  {| site :=
       {| website_images_collection := Some ∅;
          fs := {[ "uploads/a1.pdf" := [Byte.x25; Byte.x50];
                   "uploads/b2.png" := file png_upload;
                   "uploads/zz.txt" := [Byte.x68] ]};
          clock := 7 |};
     environ := ∅;
     contact_collection :=
       Some {[ "65f0a1b2c3d4e5f6a7b8c9d0" := sample_submission ]};
     admin_collection := Some [sample_admin] |}.

(** The same back end before [initialize_admin] has run. *)
Definition fresh_backend : backend :=
  {| site := site sample_backend; environ := ∅;
     contact_collection := contact_collection sample_backend;
     admin_collection := Some [] |}.

(** Profile updates: a new password without the current one, and a change
    of email. *)
Definition password_without_current : AdminUpdate :=
  {| au_name := "Admin"; au_email := "mechgenz4@gmail.com";
     au_currentPassword := None; au_password := Some "hunter2" |}.

Definition email_change : AdminUpdate :=
  {| au_name := "Admin"; au_email := "owner@example.org";
     au_currentPassword := None; au_password := None |}.

(** * Properties *)

Local Opaque WEBSITE_IMAGES_CONFIG.

Local Opaque os_path_join file_extension str_replace startswith.

(** ** The library functions on samples *)

Example splitext_two_dots :
  os_path_splitext "photo.final.PNG" = ("photo.final", ".PNG").
Proof. vm_compute; reflexivity. Qed.

Example splitext_leading_dots :
  os_path_splitext "a.b/..rc" = ("a.b/..rc", EmptyString).
Proof. vm_compute; reflexivity. Qed.

Example splitext_hidden_file :
  os_path_splitext "dir/.x.y" = ("dir/.x", ".y").
Proof. vm_compute; reflexivity. Qed.

Example splitext_no_dot : os_path_splitext "noext" = ("noext", EmptyString).
Proof. vm_compute; reflexivity. Qed.

Example file_extension_missing_name :
  file_extension {| filename := None; content_type := None; file := [] |}
  = ".jpg".
Proof. vm_compute; reflexivity. Qed.

Example join_relative :
  os_path_join "public/images" "0b5c.png" = "public/images/0b5c.png".
Proof. vm_compute; reflexivity. Qed.

Example join_absolute : os_path_join "public/images" "/etc/x" = "/etc/x".
Proof. vm_compute; reflexivity. Qed.

Example replace_every_occurrence :
  str_replace "/images/ab/images/c.jpg" "/images/" EmptyString = "abc.jpg".
Proof. vm_compute; reflexivity. Qed.

(** The sample world is what the first upload to ["logo"] produces. *)
Example first_upload_to_logo :
  upload_website_image "0b5c" "logo" png_upload empty_world
  = (Return (JObj [("success", JBool true);
                   ("message", JStr "Image uploaded successfully");
                   ("new_url", JStr "/images/0b5c.png")]),
     custom_logo_world).
Proof. vm_compute; reflexivity. Qed.

(** The scenario of the specification on the slot ["logo"]: upload, then
    reset, then list. *)
Example logo_upload_reset_listing :
  (upload_website_image "0b5c" "logo" png_upload ;;
   reset_website_image "logo" ;;
   images ← get_website_images;
   mret (current_url <$> images !! "logo")) empty_world
  = (Return (Some "/mechgenz-logo.jpg"),
     {| website_images_collection :=
          Some {[ "logo" :=
                    foldl assign custom_logo_doc
                      [set_current_url "/mechgenz-logo.jpg";
                       set_updated_at 2] ]};
        fs := {[ "public/images/0b5c.png" := file png_upload ]};
        clock := 3 |}).
Proof. vm_compute; reflexivity. Qed.

(** ** Running the primitives *)

Lemma set_collection_same (c : collection) (w : world) :
  website_images_collection w = Some c -> set_collection c w = w.
Proof. destruct w as [oc f t]; simpl; intros ->; reflexivity. Qed.

Lemma in_config_Some image_id config :
  WEBSITE_IMAGES_CONFIG !! image_id = Some config -> in_config image_id = true.
Proof. unfold in_config; intros ->; apply bool_decide_eq_true; eauto. Qed.

Lemma in_config_None image_id :
  WEBSITE_IMAGES_CONFIG !! image_id = None -> in_config image_id = false.
Proof.
  unfold in_config; intros ->; apply bool_decide_eq_false.
  intros [x Hx]; discriminate.
Qed.

(** The test of [upload_website_image] on the declared content type. *)
Lemma content_type_rejected upload :
  content_type upload = None
  \/ (exists ct, content_type upload = Some ct /\ startswith ct "image/" = false)
  -> negb (truthy (content_type upload))
     || negb (startswith (default EmptyString (content_type upload)) "image/") = true.
Proof.
  intros [-> | (ct & -> & Hct)]; [reflexivity|].
  cbn. rewrite Hct. apply orb_true_r.
Qed.


(** The loop of [get_website_images] rebuilds the collection. *)
Lemma images_loop_pairs (l : list (string * image_doc)) (acc : collection) :
  foldl (fun (images : collection) image_doc =>
           <[_id image_doc := body image_doc]> images)
        acc ((fun kd => {| _id := kd.1; body := kd.2 |}) <$> l)
  = foldr (fun kd images => <[kd.1 := kd.2]> images) acc (reverse l).
Proof.
  revert acc; induction l as [|[k d] l IH]; intros acc; [reflexivity|].
  rewrite reverse_cons, foldr_app. cbn. apply IH.
Qed.

Lemma images_loop_collection (c : collection) :
  foldl (fun (images : collection) image_doc =>
           <[_id image_doc := body image_doc]> images)
        ∅ ((fun kd => {| _id := kd.1; body := kd.2 |}) <$> map_to_list c)
  = c.
Proof.
  rewrite images_loop_pairs.
  change (list_to_map (reverse (map_to_list c)) = c).
  rewrite <- (list_to_map_to_list c) at 2.
  apply list_to_map_proper.
  - rewrite reverse_Permutation. apply NoDup_fst_map_to_list.
  - apply reverse_Permutation.
Qed.

(** The file removal of the delete modes never raises; it drops at most
    the file its path computation names. *)
Lemma remove_physical_file_run (existing : mongo_doc) (w : world) :
  remove_physical_file existing w
  = (Return tt,
     set_fs (if startswith (current_url (body existing)) "/images/"
             then delete (os_path_join "public/images"
                            (str_replace (current_url (body existing))
                                         "/images/" EmptyString))
                         (fs w)
             else fs w) w).
Proof.
  destruct w as [oc f t]. unfold remove_physical_file.
  destruct (startswith _ _); [|reflexivity].
  unfold mbind, M_bind, os_path_exists, try_warn, os_remove; cbn.
  set (p := os_path_join _ _).
  destruct (f !! p) as [x|] eqn:E; cbn.
  - rewrite E. reflexivity.
  - unfold set_fs; cbn. rewrite delete_id by exact E. reflexivity.
Qed.

(** ** Running the handlers on a connected collection *)

Ltac connected w Hc :=
  let oc := fresh "oc" in
  let f := fresh "f" in
  let t := fresh "t" in
  destruct w as [oc f t]; simpl in Hc; subst oc.

Ltac step := unfold mbind, M_bind, mret, M_ret, raise; cbn.

Lemma get_website_images_run (c : collection) (w : world) :
  website_images_collection w = Some c ->
  get_website_images w = (Return c, w).
Proof.
  intros Hc. connected w Hc.
  unfold get_website_images, try_except_all, require_collection, find.
  step. rewrite images_loop_collection. reflexivity.
Qed.

Lemma upload_disconnected uuid4 image_id upload (w : world) :
  website_images_collection w = None ->
  upload_website_image uuid4 image_id upload w
  = (Raise (HTTPException 500 "Database connection not available"), w).
Proof.
  intros Hc. unfold upload_website_image, require_collection.
  unfold mbind, M_bind. rewrite Hc. reflexivity.
Qed.

Lemma upload_unknown uuid4 image_id upload (c : collection) w :
  website_images_collection w = Some c ->
  WEBSITE_IMAGES_CONFIG !! image_id = None ->
  upload_website_image uuid4 image_id upload w
  = (Raise (HTTPException 404 "Image configuration not found"), w).
Proof.
  intros Hc Hcfg.
  unfold upload_website_image, try_except, require_collection.
  unfold mbind, M_bind. rewrite Hc, (in_config_None _ Hcfg). reflexivity.
Qed.

Lemma upload_not_image uuid4 image_id upload (c : collection) w config :
  website_images_collection w = Some c ->
  WEBSITE_IMAGES_CONFIG !! image_id = Some config ->
  negb (truthy (content_type upload))
  || negb (startswith (default EmptyString (content_type upload)) "image/") = true ->
  upload_website_image uuid4 image_id upload w
  = (Raise (HTTPException 400 "File must be an image"), w).
Proof.
  intros Hc Hcfg Hct.
  unfold upload_website_image, try_except, require_collection.
  unfold mbind, M_bind. rewrite Hc, (in_config_Some _ _ Hcfg), Hct.
  reflexivity.
Qed.

(** An upload that passes both tests and whose file cannot be opened is
    answered with HTTP 500; nothing has been written. *)
Lemma upload_write_fails uuid4 image_id upload (c : collection) w config e :
  website_images_collection w = Some c ->
  WEBSITE_IMAGES_CONFIG !! image_id = Some config ->
  negb (truthy (content_type upload))
  || negb (startswith (default EmptyString (content_type upload)) "image/") = false ->
  open_error (os_path_join "public/images" (uuid4 ++ file_extension upload))
  = Some (Exception e) ->
  upload_website_image uuid4 image_id upload w
  = (Raise (HTTPException 500 ("Error uploading image: " ++ e)), w).
Proof.
  intros Hc Hcfg Hct Hopen. connected w Hc.
  unfold upload_website_image, try_except, require_collection, write_file.
  step. rewrite (in_config_Some _ _ Hcfg), Hct. cbn.
  rewrite Hopen. reflexivity.
Qed.

Lemma open_error_Exception path e :
  open_error path = Some e -> exists message, e = Exception message.
Proof.
  unfold open_error. destruct (has_char _ path); [intros [= <-]; eauto|].
  destruct (Nat.ltb _ _); [intros [= <-]; eauto|discriminate].
Qed.

Lemma upload_accepts uuid4 image_id upload (c : collection) w config :
  website_images_collection w = Some c ->
  WEBSITE_IMAGES_CONFIG !! image_id = Some config ->
  negb (truthy (content_type upload))
  || negb (startswith (default EmptyString (content_type upload)) "image/") = false ->
  open_error (os_path_join "public/images" (uuid4 ++ file_extension upload))
  = None ->
  upload_website_image uuid4 image_id upload w
  = let unique_filename := uuid4 ++ file_extension upload in
    let new_url := "/images/" ++ unique_filename in
    (Return (JObj [("success", JBool true);
                   ("message", JStr "Image uploaded successfully");
                   ("new_url", JStr new_url)]),
     {| website_images_collection :=
          Some (<[image_id :=
                    match c !! image_id with
                    | Some d =>
                        foldl assign d
                          [set_current_url new_url; set_updated_at (clock w)]
                    | None =>
                        {| name := cfg_name config;
                           description := cfg_description config;
                           current_url := new_url;
                           default_url := cfg_default_url config;
                           locations := cfg_locations config;
                           recommended_size := cfg_recommended_size config;
                           category := cfg_category config;
                           created_at := clock w;
                           updated_at := S (clock w) |}
                    end]> c);
        fs := <[os_path_join "public/images" unique_filename := file upload]>
                (fs w);
        clock := match c !! image_id with
                 | Some _ => S (clock w)
                 | None => S (S (clock w))
                 end |}).
Proof.
  intros Hc Hcfg Hct Hopen. connected w Hc.
  unfold upload_website_image, try_except, require_collection, config_of,
    write_file.
  step. rewrite (in_config_Some _ _ Hcfg), Hct. cbn. rewrite Hopen. cbn.
  destruct (c !! image_id) as [d|] eqn:E; cbn; rewrite ?E, ?Hcfg; cbn;
    rewrite ?E; reflexivity.
Qed.

Lemma update_run image_id update_data (c : collection) w :
  website_images_collection w = Some c ->
  update_website_image image_id update_data w
  = match c !! image_id with
    | Some d =>
        (Return (JObj [("success", JBool true);
                       ("message", JStr "Image updated successfully")]),
         {| website_images_collection :=
              Some (<[image_id :=
                        foldl assign d
                          [set_name (iu_name update_data);
                           set_description (iu_description update_data);
                           set_updated_at (clock w)]]> c);
            fs := fs w; clock := S (clock w) |})
    | None =>
        (Raise (HTTPException 404 "Image not found"),
         {| website_images_collection := Some c;
            fs := fs w; clock := S (clock w) |})
    end.
Proof.
  intros Hc. connected w Hc.
  unfold update_website_image, try_except, require_collection. step.
  destruct (c !! image_id) as [d|] eqn:E; cbn; reflexivity.
Qed.

Lemma reset_unknown image_id (c : collection) w :
  website_images_collection w = Some c ->
  WEBSITE_IMAGES_CONFIG !! image_id = None ->
  reset_website_image image_id w
  = (Raise (HTTPException 404 "Image configuration not found"), w).
Proof.
  intros Hc Hcfg.
  unfold reset_website_image, try_except, require_collection.
  unfold mbind, M_bind. rewrite Hc, (in_config_None _ Hcfg). reflexivity.
Qed.

Lemma reset_known image_id (c : collection) w config :
  website_images_collection w = Some c ->
  WEBSITE_IMAGES_CONFIG !! image_id = Some config ->
  reset_website_image image_id w
  = match c !! image_id with
    | Some d =>
        (Return (JObj [("success", JBool true);
                       ("message", JStr "Image reset to default");
                       ("default_url", JStr (cfg_default_url config))]),
         {| website_images_collection :=
              Some (<[image_id :=
                        foldl assign d
                          [set_current_url (cfg_default_url config);
                           set_updated_at (clock w)]]> c);
            fs := fs w; clock := S (clock w) |})
    | None =>
        (Raise (HTTPException 404 "Image not found"),
         {| website_images_collection := Some c;
            fs := fs w; clock := S (clock w) |})
    end.
Proof.
  intros Hc Hcfg. connected w Hc.
  unfold reset_website_image, try_except, require_collection, config_of.
  step. rewrite (in_config_Some _ _ Hcfg), Hcfg. cbn.
  destruct (c !! image_id) as [d|] eqn:E; cbn; reflexivity.
Qed.

Local Opaque remove_physical_file.

Lemma delete_invalid_type image_id delete_type (c : collection) w :
  website_images_collection w = Some c ->
  delete_type <> "image_only" -> delete_type <> "complete" ->
  delete_website_image image_id delete_type w
  = (Raise (HTTPException 400
       "Invalid delete_type. Must be 'image_only' or 'complete'"), w).
Proof.
  intros Hc H1 H2.
  unfold delete_website_image, try_except, require_collection.
  unfold mbind, M_bind. rewrite Hc.
  rewrite bool_decide_eq_false_2; [reflexivity|].
  rewrite !elem_of_cons, elem_of_nil. tauto.
Qed.

Lemma delete_image_only_unknown image_id (c : collection) w :
  website_images_collection w = Some c ->
  WEBSITE_IMAGES_CONFIG !! image_id = None ->
  delete_website_image image_id "image_only" w
  = (Raise (HTTPException 404 "Image configuration not found"), w).
Proof.
  intros Hc Hcfg. connected w Hc.
  unfold delete_website_image, try_except, require_collection, find_one.
  rewrite (bool_decide_eq_true_2 (_ ∈ _)) by (rewrite !elem_of_cons; tauto).
  rewrite ?(bool_decide_eq_true_2 (_ = _)) by reflexivity.
  rewrite ?(bool_decide_eq_false_2 (_ = _)) by discriminate.
  rewrite ?(bool_decide_eq_true_2 (_ = _)) by reflexivity.
  step. rewrite (in_config_None _ Hcfg). reflexivity.
Qed.

Lemma delete_image_only_known image_id (c : collection) w config :
  website_images_collection w = Some c ->
  WEBSITE_IMAGES_CONFIG !! image_id = Some config ->
  delete_website_image image_id "image_only" w
  = (Return (JObj [("success", JBool true);
                   ("message",
                    JStr "Custom image deleted and reset to default");
                   ("action", JStr "image_only");
                   ("default_url", JStr (cfg_default_url config))]),
     match c !! image_id with
     | Some d =>
         {| website_images_collection :=
              Some (<[image_id :=
                        foldl assign d
                          [set_current_url (cfg_default_url config);
                           set_updated_at (clock w)]]> c);
            fs := if startswith (current_url d) "/images/"
                  then delete (os_path_join "public/images"
                                 (str_replace (current_url d) "/images/" EmptyString))
                              (fs w)
                  else fs w;
            clock := S (clock w) |}
     | None =>
         {| website_images_collection :=
              Some (<[image_id :=
                        {| name := cfg_name config;
                           description := cfg_description config;
                           current_url := cfg_default_url config;
                           default_url := cfg_default_url config;
                           locations := cfg_locations config;
                           recommended_size := cfg_recommended_size config;
                           category := cfg_category config;
                           created_at := clock w;
                           updated_at := S (clock w) |}]> c);
            fs := fs w;
            clock := S (S (clock w)) |}
     end).
Proof.
  intros Hc Hcfg. connected w Hc.
  unfold delete_website_image, try_except, require_collection, find_one,
    config_of.
  rewrite (bool_decide_eq_true_2 (_ ∈ _)) by (rewrite !elem_of_cons; tauto).
  rewrite ?(bool_decide_eq_true_2 (_ = _)) by reflexivity.
  rewrite ?(bool_decide_eq_false_2 (_ = _)) by discriminate.
  rewrite ?(bool_decide_eq_true_2 (_ = _)) by reflexivity.
  step. rewrite (in_config_Some _ _ Hcfg), Hcfg. cbn.
  destruct (c !! image_id) as [d|] eqn:E; cbn.
  - rewrite remove_physical_file_run. cbn. rewrite E. reflexivity.
  - rewrite E. reflexivity.
Qed.

Lemma delete_complete_run image_id (c : collection) w :
  website_images_collection w = Some c ->
  delete_website_image image_id "complete" w
  = match c !! image_id with
    | Some d =>
        (Return (JObj [("success", JBool true);
                       ("message",
                        JStr "Image configuration deleted completely");
                       ("action", JStr "complete")]),
         {| website_images_collection := Some (delete image_id c);
            fs := if startswith (current_url d) "/images/"
                  then delete (os_path_join "public/images"
                                 (str_replace (current_url d) "/images/" EmptyString))
                              (fs w)
                  else fs w;
            clock := clock w |})
    | None =>
        (Return (JObj [("success", JBool true);
                       ("message",
                        JStr "Image configuration was already deleted");
                       ("action", JStr "complete")]), w)
    end.
Proof.
  intros Hc. connected w Hc.
  unfold delete_website_image, try_except, require_collection, find_one.
  rewrite (bool_decide_eq_true_2 (_ ∈ _)) by (rewrite !elem_of_cons; tauto).
  rewrite ?(bool_decide_eq_true_2 (_ = _)) by reflexivity.
  rewrite ?(bool_decide_eq_false_2 (_ = _)) by discriminate.
  rewrite ?(bool_decide_eq_true_2 (_ = _)) by reflexivity.
  step.
  destruct (c !! image_id) as [d|] eqn:E; cbn.
  - rewrite remove_physical_file_run. cbn. rewrite E. reflexivity.
  - reflexivity.
Qed.

(** ** The claims of the specification *)

(** C1, as stated, fails: the slot ["logo"] is in the catalog and has no
    override record in the empty collection, yet the listing returns no
    entry for it (no view is synthesized from the catalog defaults). *)
Lemma get_website_images_omits_unrecorded_slot :
  is_Some (WEBSITE_IMAGES_CONFIG !! "logo")
  /\ record_of "logo" empty_world = None
  /\ exists images,
       get_website_images empty_world = (Return images, empty_world)
       /\ images !! "logo" = None.
Proof.
  split; [vm_compute; eauto|]. split; [reflexivity|].
  exists ∅. split; [|reflexivity].
  apply get_website_images_run. reflexivity.
Qed.

(** C1, amended: on a connected collection the listing returns without
    error exactly the override records of the collection, keyed by slot
    id; a slot without a record has no entry, and the empty collection
    yields the empty listing. *)
Theorem get_website_images_lists_records (c : collection) (w : world) :
  website_images_collection w = Some c ->
  exists images,
    get_website_images w = (Return images, w)
    /\ (forall image_id, images !! image_id = c !! image_id)
    /\ (forall image_id, c !! image_id = None -> images !! image_id = None)
    /\ (c = ∅ -> images = ∅).
Proof.
  intros Hc. exists c. split; [apply get_website_images_run, Hc|].
  repeat split; auto.
Qed.

Lemma get_website_images_lists_records_witness :
  website_images_collection custom_logo_world = Some custom_logo_store
  /\ exists images,
       get_website_images custom_logo_world = (Return images, custom_logo_world)
       /\ images !! "logo" = Some custom_logo_doc
       /\ images !! "hero_slide_1" = None.
Proof.
  split; [reflexivity|].
  destruct (get_website_images_lists_records custom_logo_store
              custom_logo_world eq_refl) as (images & Hrun & Hsame & _).
  exists images. split; [exact Hrun|].
  rewrite !Hsame. split; reflexivity.
Defined.




(** C3: on a connected collection, an upload to and a reset of a slot id
    that is not in the catalog both raise HTTP 404 and leave the world
    (collection, files, clock) as it was. *)
Theorem unknown_slot_upload_reset_not_found
    uuid4 image_id upload (c : collection) (w : world) :
  website_images_collection w = Some c ->
  WEBSITE_IMAGES_CONFIG !! image_id = None ->
  upload_website_image uuid4 image_id upload w
  = (Raise (HTTPException 404 "Image configuration not found"), w)
  /\ reset_website_image image_id w
     = (Raise (HTTPException 404 "Image configuration not found"), w).
Proof.
  intros Hc Hcfg. split.
  - exact (upload_unknown uuid4 image_id upload c w Hc Hcfg).
  - exact (reset_unknown image_id c w Hc Hcfg).
Qed.

Lemma unknown_slot_upload_reset_not_found_witness :
  website_images_collection custom_logo_world = Some custom_logo_store
  /\ WEBSITE_IMAGES_CONFIG !! "favicon" = None
  /\ upload_website_image "77aa" "favicon" png_upload custom_logo_world
     = (Raise (HTTPException 404 "Image configuration not found"),
        custom_logo_world)
  /\ reset_website_image "favicon" custom_logo_world
     = (Raise (HTTPException 404 "Image configuration not found"),
        custom_logo_world).
Proof.
  assert (Hcfg : WEBSITE_IMAGES_CONFIG !! "favicon" = None)
    by (vm_compute; reflexivity).
  split; [reflexivity|]. split; [exact Hcfg|].
  exact (unknown_slot_upload_reset_not_found "77aa" "favicon" png_upload
           custom_logo_store custom_logo_world eq_refl Hcfg).
Defined.

(** C4: on a connected collection, an upload to a catalog slot whose file
    declares no content type, or one that does not start with [image/],
    raises HTTP 400; no file is written and the collection is unchanged
    (the world is as it was). *)
Theorem upload_rejects_non_image
    uuid4 image_id upload config (c : collection) (w : world) :
  website_images_collection w = Some c ->
  WEBSITE_IMAGES_CONFIG !! image_id = Some config ->
  content_type upload = None
  \/ (exists ct, content_type upload = Some ct
                 /\ startswith ct "image/" = false) ->
  upload_website_image uuid4 image_id upload w
  = (Raise (HTTPException 400 "File must be an image"), w).
Proof.
  intros Hc Hcfg Hct.
  exact (upload_not_image uuid4 image_id upload c w config Hc Hcfg
           (content_type_rejected upload Hct)).
Qed.

Lemma upload_rejects_non_image_witness :
  website_images_collection custom_logo_world = Some custom_logo_store
  /\ WEBSITE_IMAGES_CONFIG !! "logo" = Some logo_config
  /\ (content_type text_upload = None
      \/ exists ct, content_type text_upload = Some ct
                    /\ startswith ct "image/" = false)
  /\ upload_website_image "77aa" "logo" text_upload custom_logo_world
     = (Raise (HTTPException 400 "File must be an image"), custom_logo_world).
Proof.
  assert (Hcfg : WEBSITE_IMAGES_CONFIG !! "logo" = Some logo_config)
    by (vm_compute; reflexivity).
  assert (Hct : content_type text_upload = None
                \/ exists ct, content_type text_upload = Some ct
                              /\ startswith ct "image/" = false).
  { right. exists "text/plain". split; [reflexivity|].
    vm_compute; reflexivity. }
  split; [reflexivity|]. split; [exact Hcfg|]. split; [exact Hct|].
  exact (upload_rejects_non_image "77aa" "logo" text_upload logo_config
           custom_logo_store custom_logo_world eq_refl Hcfg Hct).
Defined.

(** C5: an upload that succeeds on a connected collection answers the URL
    [/images/<uuid><extension>] and leaves a record for the slot whose
    [current_url] is that URL.  When the slot had no record, the new one is
    filled from the slot's catalog entry and stamped with the two readings
    of the clock; when it had one, [updated_at] becomes the reading of the
    clock and every field but [current_url] and [updated_at] is the one it
    had.  Records of other slots are untouched. *)
Theorem upload_upserts_record
    uuid4 image_id upload (c : collection) (w w' : world) (r : json) :
  website_images_collection w = Some c ->
  upload_website_image uuid4 image_id upload w = (Return r, w') ->
  exists config d',
    WEBSITE_IMAGES_CONFIG !! image_id = Some config
    /\ member "new_url" r
       = Some (JStr ("/images/" ++ uuid4 ++ file_extension upload))
    /\ record_of image_id w' = Some d'
    /\ current_url d' = "/images/" ++ uuid4 ++ file_extension upload
    /\ match c !! image_id with
       | None =>
           name d' = cfg_name config
           /\ description d' = cfg_description config
           /\ default_url d' = cfg_default_url config
           /\ locations d' = cfg_locations config
           /\ recommended_size d' = cfg_recommended_size config
           /\ category d' = cfg_category config
           /\ created_at d' = clock w
           /\ updated_at d' = S (clock w)
       | Some d =>
           name d' = name d
           /\ description d' = description d
           /\ default_url d' = default_url d
           /\ locations d' = locations d
           /\ recommended_size d' = recommended_size d
           /\ category d' = category d
           /\ created_at d' = created_at d
           /\ updated_at d' = clock w
       end
    /\ forall other, other <> image_id -> record_of other w' = c !! other.
Proof.
  intros Hc Hrun.
  destruct (WEBSITE_IMAGES_CONFIG !! image_id) as [config|] eqn:Hcfg.
  2: { rewrite (upload_unknown uuid4 image_id upload c w Hc Hcfg) in Hrun.
       discriminate Hrun. }
  destruct (negb (truthy (content_type upload))
            || negb (startswith (default EmptyString (content_type upload)) "image/"))
    eqn:Hct.
  { rewrite (upload_not_image uuid4 image_id upload c w config Hc Hcfg Hct)
      in Hrun. discriminate Hrun. }
  destruct (open_error (os_path_join "public/images"
                          (uuid4 ++ file_extension upload)))
    as [e|] eqn:Hopen.
  { destruct (open_error_Exception _ _ Hopen) as [message ->].
    rewrite (upload_write_fails uuid4 image_id upload c w config message
               Hc Hcfg Hct Hopen) in Hrun. discriminate Hrun. }
  rewrite (upload_accepts uuid4 image_id upload c w config Hc Hcfg Hct Hopen)
    in Hrun.
  cbv zeta in Hrun. injection Hrun as <- <-.
  exists config. eexists. split; [reflexivity|]. split; [reflexivity|].
  split; [cbn; apply lookup_insert_eq|].
  split; [destruct (c !! image_id); reflexivity|].
  split; [destruct (c !! image_id); cbn; repeat split; reflexivity|].
  intros other Hne. cbn. apply lookup_insert_ne. congruence.
Qed.

Lemma upload_upserts_record_witness :
  website_images_collection custom_logo_world = Some custom_logo_store
  /\ upload_website_image "77aa" "logo" png_upload custom_logo_world
     = (Return (JObj [("success", JBool true);
                      ("message", JStr "Image uploaded successfully");
                      ("new_url", JStr "/images/77aa.png")]),
        (upload_website_image "77aa" "logo" png_upload custom_logo_world).2)
  /\ exists d',
       record_of "logo"
         (upload_website_image "77aa" "logo" png_upload custom_logo_world).2
       = Some d'
       /\ current_url d' = "/images/77aa.png"
       /\ name d' = "Company Logo"
       /\ default_url d' = "/mechgenz-logo.jpg"
       /\ created_at d' = 0
       /\ updated_at d' = 2.
Proof.
  assert (Hrun :
    upload_website_image "77aa" "logo" png_upload custom_logo_world
    = (Return (JObj [("success", JBool true);
                     ("message", JStr "Image uploaded successfully");
                     ("new_url", JStr "/images/77aa.png")]),
       (upload_website_image "77aa" "logo" png_upload custom_logo_world).2))
    by (vm_compute; reflexivity).
  split; [reflexivity|]. split; [exact Hrun|].
  destruct (upload_upserts_record "77aa" "logo" png_upload custom_logo_store
              custom_logo_world _ _ eq_refl Hrun)
    as (config & d' & _ & _ & Hrec & Hurl & Hframe & _).
  exists d'. split; [exact Hrec|].
  change (custom_logo_store !! "logo") with (Some custom_logo_doc) in Hframe.
  destruct Hframe as (Hn & _ & Hd & _ & _ & _ & Hcr & Hup).
  rewrite Hurl, Hn, Hd, Hcr, Hup.
  repeat split; vm_compute; reflexivity.
Defined.

(** C6: on a connected collection that holds no record for a slot id, the
    metadata update and the reset both raise HTTP 404, and afterwards the
    collection is the one before (no record has been created) and so are
    the files. *)
Theorem update_and_reset_require_record
    image_id update_data (c : collection) (w : world) :
  website_images_collection w = Some c ->
  c !! image_id = None ->
  (exists detail w1,
     update_website_image image_id update_data w
     = (Raise (HTTPException 404 detail), w1)
     /\ website_images_collection w1 = Some c
     /\ fs w1 = fs w)
  /\ (exists detail w2,
        reset_website_image image_id w
        = (Raise (HTTPException 404 detail), w2)
        /\ website_images_collection w2 = Some c
        /\ fs w2 = fs w).
Proof.
  intros Hc Hrec. split.
  - rewrite (update_run image_id update_data c w Hc), Hrec.
    do 2 eexists. repeat split; reflexivity.
  - destruct (WEBSITE_IMAGES_CONFIG !! image_id) as [config|] eqn:Hcfg.
    + rewrite (reset_known image_id c w config Hc Hcfg), Hrec.
      do 2 eexists. repeat split; reflexivity.
    + rewrite (reset_unknown image_id c w Hc Hcfg).
      do 2 eexists. split; [reflexivity|]. split; [exact Hc | reflexivity].
Qed.

Lemma update_and_reset_require_record_witness :
  website_images_collection custom_logo_world = Some custom_logo_store
  /\ custom_logo_store !! "about_main" = None
  /\ (exists detail w1,
        update_website_image "about_main"
          {| iu_name := "About"; iu_description := "Team photo" |}
          custom_logo_world
        = (Raise (HTTPException 404 detail), w1)
        /\ website_images_collection w1 = Some custom_logo_store
        /\ fs w1 = fs custom_logo_world)
  /\ (exists detail w2,
        reset_website_image "about_main" custom_logo_world
        = (Raise (HTTPException 404 detail), w2)
        /\ website_images_collection w2 = Some custom_logo_store
        /\ fs w2 = fs custom_logo_world).
Proof.
  split; [reflexivity|]. split; [reflexivity|].
  exact (update_and_reset_require_record "about_main"
           {| iu_name := "About"; iu_description := "Team photo" |}
           custom_logo_store custom_logo_world eq_refl eq_refl).
Defined.

(** C7: on a connected collection, the complete delete of any slot id, in
    the catalog or not, with a record or not, succeeds and leaves no record
    for it; the same call on the resulting world succeeds again and
    returns that world unchanged. *)
Theorem delete_complete_idempotent image_id (c : collection) (w : world) :
  website_images_collection w = Some c ->
  exists r1 w1 r2,
    delete_website_image image_id "complete" w = (Return r1, w1)
    /\ succeeded r1
    /\ website_images_collection w1 = Some (delete image_id c)
    /\ delete_website_image image_id "complete" w1 = (Return r2, w1)
    /\ succeeded r2.
Proof.
  intros Hc.
  rewrite (delete_complete_run image_id c w Hc).
  destruct (c !! image_id) as [d|] eqn:Hrec.
  - eexists _, _, _. split; [reflexivity|]. split; [reflexivity|].
    split; [reflexivity|].
    erewrite (delete_complete_run image_id (delete image_id c))
      by reflexivity.
    rewrite lookup_delete_eq. split; reflexivity.
  - eexists _, w, _. split; [reflexivity|]. split; [reflexivity|].
    split; [rewrite delete_id by exact Hrec; exact Hc|].
    rewrite (delete_complete_run image_id c w Hc), Hrec.
    split; reflexivity.
Qed.

Lemma delete_complete_idempotent_witness :
  website_images_collection custom_logo_world = Some custom_logo_store
  /\ exists r1 w1 r2,
       delete_website_image "logo" "complete" custom_logo_world
       = (Return r1, w1)
       /\ succeeded r1
       /\ website_images_collection w1 = Some (delete "logo" custom_logo_store)
       /\ delete_website_image "logo" "complete" w1 = (Return r2, w1)
       /\ succeeded r2.
Proof.
  split; [reflexivity|].
  exact (delete_complete_idempotent "logo" custom_logo_store
           custom_logo_world eq_refl).
Defined.

(** C8: on a connected collection, the image-only delete raises HTTP 404
    for a slot id outside the catalog (the world staying as it was) and
    succeeds for every slot id of the catalog.  After a success the slot
    has a record whose [current_url] is the catalog [default_url]: built
    from the catalog entry when there was none, and otherwise the former
    record with only [current_url] and [updated_at] assigned. *)
Theorem delete_image_only_resets image_id (c : collection) (w : world) :
  website_images_collection w = Some c ->
  match WEBSITE_IMAGES_CONFIG !! image_id with
  | None =>
      delete_website_image image_id "image_only" w
      = (Raise (HTTPException 404 "Image configuration not found"), w)
  | Some config =>
      exists r w' d',
        delete_website_image image_id "image_only" w = (Return r, w')
        /\ succeeded r
        /\ record_of image_id w' = Some d'
        /\ current_url d' = cfg_default_url config
        /\ match c !! image_id with
           | None =>
               name d' = cfg_name config
               /\ description d' = cfg_description config
               /\ default_url d' = cfg_default_url config
               /\ locations d' = cfg_locations config
               /\ recommended_size d' = cfg_recommended_size config
               /\ category d' = cfg_category config
           | Some d =>
               name d' = name d
               /\ description d' = description d
               /\ default_url d' = default_url d
               /\ locations d' = locations d
               /\ recommended_size d' = recommended_size d
               /\ category d' = category d
               /\ created_at d' = created_at d
           end
  end.
Proof.
  intros Hc.
  destruct (WEBSITE_IMAGES_CONFIG !! image_id) as [config|] eqn:Hcfg.
  - rewrite (delete_image_only_known image_id c w config Hc Hcfg).
    destruct (c !! image_id) as [d|] eqn:Hrec;
      (eexists _, _, _; split; [reflexivity|]; split; [reflexivity|];
       split; [cbn; apply lookup_insert_eq|];
       split; [reflexivity|]; cbn; repeat split; reflexivity).
  - exact (delete_image_only_unknown image_id c w Hc Hcfg).
Qed.

Lemma delete_image_only_resets_witness :
  website_images_collection empty_world = Some ∅
  /\ exists r w' d',
       delete_website_image "logo" "image_only" empty_world = (Return r, w')
       /\ succeeded r
       /\ record_of "logo" w' = Some d'
       /\ current_url d' = "/mechgenz-logo.jpg"
       /\ name d' = "Company Logo".
Proof.
  split; [reflexivity|].
  pose proof (delete_image_only_resets "logo" ∅ empty_world eq_refl) as H.
  replace (WEBSITE_IMAGES_CONFIG !! "logo") with (Some logo_config) in H
    by (vm_compute; reflexivity).
  destruct H as (r & w' & d' & Hrun & Hok & Hrec & Hurl & Hmeta).
  exists r, w', d'. repeat (split; [assumption|]).
  exact (proj1 Hmeta).
Defined.

(** C9: on a connected collection, a delete whose [delete_type] is neither
    [image_only] nor [complete] raises HTTP 400 for every slot id and
    leaves the world as it was. *)
Theorem delete_rejects_other_modes
    image_id delete_type (c : collection) (w : world) :
  website_images_collection w = Some c ->
  delete_type <> "image_only" ->
  delete_type <> "complete" ->
  delete_website_image image_id delete_type w
  = (Raise (HTTPException 400
       "Invalid delete_type. Must be 'image_only' or 'complete'"), w).
Proof. exact (delete_invalid_type image_id delete_type c w). Qed.

Lemma delete_rejects_other_modes_witness :
  website_images_collection custom_logo_world = Some custom_logo_store
  /\ "foo" <> "image_only"
  /\ "foo" <> "complete"
  /\ delete_website_image "logo" "foo" custom_logo_world
     = (Raise (HTTPException 400
          "Invalid delete_type. Must be 'image_only' or 'complete'"),
        custom_logo_world).
Proof.
  assert (H1 : "foo" <> "image_only") by discriminate.
  assert (H2 : "foo" <> "complete") by discriminate.
  split; [reflexivity|]. split; [exact H1|]. split; [exact H2|].
  exact (delete_rejects_other_modes "logo" "foo" custom_logo_store
           custom_logo_world eq_refl H1 H2).
Defined.

(** C10: the upload tests catalog membership before the content type.  On
    a connected collection a slot id outside the catalog gets HTTP 404
    whatever the file declares, and in any world an upload answered with
    HTTP 400 was addressed to a slot id of the catalog. *)
Theorem upload_checks_catalog_first uuid4 image_id upload (w : world) :
  (forall c : collection,
     website_images_collection w = Some c ->
     WEBSITE_IMAGES_CONFIG !! image_id = None ->
     upload_website_image uuid4 image_id upload w
     = (Raise (HTTPException 404 "Image configuration not found"), w))
  /\ (forall detail w',
        upload_website_image uuid4 image_id upload w
        = (Raise (HTTPException 400 detail), w') ->
        is_Some (WEBSITE_IMAGES_CONFIG !! image_id)).
Proof.
  split.
  - intros c Hc Hcfg. exact (upload_unknown uuid4 image_id upload c w Hc Hcfg).
  - intros detail w' Hrun.
    destruct (website_images_collection w) as [c|] eqn:Hc.
    + destruct (WEBSITE_IMAGES_CONFIG !! image_id) as [config|] eqn:Hcfg;
        [eauto|].
      rewrite (upload_unknown uuid4 image_id upload c w Hc Hcfg) in Hrun.
      discriminate Hrun.
    + rewrite (upload_disconnected uuid4 image_id upload w Hc) in Hrun.
      discriminate Hrun.
Qed.

Lemma upload_checks_catalog_first_witness :
  upload_website_image "77aa" "favicon" text_upload custom_logo_world
  = (Raise (HTTPException 404 "Image configuration not found"),
     custom_logo_world)
  /\ is_Some (WEBSITE_IMAGES_CONFIG !! "logo").
Proof.
  split.
  - apply (proj1 (upload_checks_catalog_first "77aa" "favicon" text_upload
                    custom_logo_world) custom_logo_store).
    + reflexivity.
    + vm_compute; reflexivity.
  - apply (proj2 (upload_checks_catalog_first "77aa" "logo" text_upload
                    custom_logo_world)
             "File must be an image" custom_logo_world).
    vm_compute; reflexivity.
Defined.

(** * Further properties of the code *)

(** ** Strings and paths *)

Local Transparent os_path_join file_extension str_replace startswith.

Lemma has_char_app c (s t : string) :
  has_char c (s ++ t) = has_char c s || has_char c t.
Proof.
  induction s as [|a s IH]; [reflexivity|].
  simpl. rewrite IH. apply orb_assoc.
Qed.

Lemma rfind_from_range c s (i : Z) :
  (0 <= i)%Z ->
  rfind_from c s i = (-1)%Z \/ (i <= rfind_from c s i)%Z.
Proof.
  revert i; induction s as [|a s IH]; intros i Hi; cbn; [left; reflexivity|].
  destruct (IH (i + 1)%Z ltac:(lia)) as [-> | Hle].
  - cbn. destruct (Ascii.eqb a c); [right; lia | left; reflexivity].
  - destruct (Z.leb_spec 0 (rfind_from c s (i + 1))); [right; lia|lia].
Qed.

(** No [c] occurs after the index [rfind] answers. *)
Lemma rfind_from_tail c s (i : Z) (k : nat) :
  (0 <= i)%Z ->
  (rfind_from c s i < i + Z.of_nat k)%Z ->
  has_char c (String.substring k (String.length s - k) s) = false.
Proof.
  revert i k; induction s as [|a s IH]; intros i k Hi Hlt.
  - destruct k; reflexivity.
  - cbn in Hlt.
    destruct (rfind_from_range c s (i + 1)%Z ltac:(lia)) as [Hr | Hr].
    + rewrite Hr in Hlt. cbn in Hlt.
      destruct k as [|k].
      * cbn. destruct (Ascii.eqb a c) eqn:E; [lia|]. cbn.
        specialize (IH (i + 1)%Z 0 ltac:(lia) ltac:(lia)).
        rewrite Nat.sub_0_r in IH.
        destruct s; [reflexivity|exact IH].
      * cbn. apply (IH (i + 1)%Z k); lia.
    + destruct (Z.leb_spec 0 (rfind_from c s (i + 1))); [|lia].
      destruct k as [|k]; [lia|].
      cbn. apply (IH (i + 1)%Z k); lia.
Qed.

(** The extension [os.path.splitext] answers holds no path separator. *)
Lemma splitext_no_sep p : has_char "/" (os_path_splitext p).2 = false.
Proof.
  unfold os_path_splitext, rfind.
  destruct ((rfind_from "/" p 0 <? rfind_from "." p 0)%Z
            && splitext_scan p _ _) eqn:E; [|reflexivity].
  apply andb_prop in E as [Hlt _]. apply Z.ltb_lt in Hlt.
  cbn [snd].
  apply (rfind_from_tail "/" p 0); [lia|].
  destruct (rfind_from_range "/" p 0 ltac:(lia)); lia.
Qed.

Lemma file_extension_no_sep upload :
  has_char "/" (file_extension upload) = false.
Proof.
  unfold file_extension. destruct (truthy _); [apply splitext_no_sep|].
  reflexivity.
Qed.

Lemma prefix_cons a b (s t : string) :
  String.prefix (String a s) (String b t)
  = if ascii_dec a b then String.prefix s t else false.
Proof. reflexivity. Qed.



(** A name without separator is joined below the directory. *)
Lemma os_path_join_plain (dir s : string) :
  dir <> EmptyString -> endswith dir "/" = false ->
  has_char "/" s = false ->
  os_path_join dir s = dir ++ "/" ++ s.
Proof.
  intros Hdir Hend Hs. unfold os_path_join, startswith.
  rewrite Hend, orb_false_r.
  rewrite bool_decide_eq_false_2 by exact Hdir.
  destruct s as [|a s]; [reflexivity|].
  cbn [has_char] in Hs. apply orb_false_elim in Hs as [Ha _].
  rewrite prefix_cons.
  destruct (ascii_dec "/" a) as [<-|]; [discriminate Ha|reflexivity].
Qed.




Local Opaque os_path_join file_extension str_replace startswith.

(** ** Without a connection *)

Lemma get_website_images_disconnected (w : world) :
  website_images_collection w = None ->
  get_website_images w
  = (Raise (HTTPException 500 "Database connection not available"), w).
Proof.
  intros Hc. unfold get_website_images, require_collection.
  unfold mbind, M_bind. rewrite Hc. reflexivity.
Qed.

Lemma get_image_categories_disconnected (w : world) :
  website_images_collection w = None ->
  get_image_categories w
  = (Raise (HTTPException 500 "Database connection not available"), w).
Proof.
  intros Hc. unfold get_image_categories, require_collection.
  unfold mbind, M_bind. rewrite Hc. reflexivity.
Qed.

Lemma update_disconnected image_id update_data (w : world) :
  website_images_collection w = None ->
  update_website_image image_id update_data w
  = (Raise (HTTPException 500 "Database connection not available"), w).
Proof.
  intros Hc. unfold update_website_image, require_collection.
  unfold mbind, M_bind. rewrite Hc. reflexivity.
Qed.

Lemma reset_disconnected image_id (w : world) :
  website_images_collection w = None ->
  reset_website_image image_id w
  = (Raise (HTTPException 500 "Database connection not available"), w).
Proof.
  intros Hc. unfold reset_website_image, require_collection.
  unfold mbind, M_bind. rewrite Hc. reflexivity.
Qed.

Lemma delete_disconnected image_id delete_type (w : world) :
  website_images_collection w = None ->
  delete_website_image image_id delete_type w
  = (Raise (HTTPException 500 "Database connection not available"), w).
Proof.
  intros Hc. unfold delete_website_image, require_collection.
  unfold mbind, M_bind. rewrite Hc. reflexivity.
Qed.

(** X1: while the collection global is [None], each of the six image
    handlers raises HTTP 500 with the detail [Database connection not
    available], whatever its arguments, and leaves the world as it was. *)
Theorem image_handlers_need_collection
    uuid4 image_id upload update_data delete_type (w : world) :
  website_images_collection w = None ->
  let unavailable :=
    HTTPException 500 "Database connection not available" in
  get_website_images w = (Raise unavailable, w)
  /\ get_image_categories w = (Raise unavailable, w)
  /\ upload_website_image uuid4 image_id upload w = (Raise unavailable, w)
  /\ update_website_image image_id update_data w = (Raise unavailable, w)
  /\ reset_website_image image_id w = (Raise unavailable, w)
  /\ delete_website_image image_id delete_type w = (Raise unavailable, w).
Proof.
  intros Hc. cbv zeta.
  split; [exact (get_website_images_disconnected w Hc)|].
  split; [exact (get_image_categories_disconnected w Hc)|].
  split; [exact (upload_disconnected uuid4 image_id upload w Hc)|].
  split; [exact (update_disconnected image_id update_data w Hc)|].
  split; [exact (reset_disconnected image_id w Hc)|].
  exact (delete_disconnected image_id delete_type w Hc).
Qed.

Lemma image_handlers_need_collection_witness :
  website_images_collection disconnected_world = None
  /\ upload_website_image "77aa" "logo" png_upload disconnected_world
     = (Raise (HTTPException 500 "Database connection not available"),
        disconnected_world)
  /\ delete_website_image "logo" "complete" disconnected_world
     = (Raise (HTTPException 500 "Database connection not available"),
        disconnected_world).
Proof.
  split; [reflexivity|].
  destruct (image_handlers_need_collection "77aa" "logo" png_upload
              {| iu_name := "Logo"; iu_description := "New" |} "complete"
              disconnected_world eq_refl)
    as (_ & _ & Hup & _ & _ & Hdel).
  split; [exact Hup | exact Hdel].
Defined.

(** X2: on a connected collection, the metadata update of a slot id that
    has a record succeeds, whether the id is in the catalog or not; the
    record then has the new [name] and [description] and keeps its
    [current_url], [default_url], [locations], [recommended_size],
    [category] and [created_at]; the files are untouched. *)
Theorem update_patches_name_and_description
    image_id update_data (c : collection) (w : world) (d : image_doc) :
  website_images_collection w = Some c ->
  c !! image_id = Some d ->
  exists r w' d',
    update_website_image image_id update_data w = (Return r, w')
    /\ succeeded r
    /\ record_of image_id w' = Some d'
    /\ name d' = iu_name update_data
    /\ description d' = iu_description update_data
    /\ current_url d' = current_url d
    /\ default_url d' = default_url d
    /\ locations d' = locations d
    /\ recommended_size d' = recommended_size d
    /\ category d' = category d
    /\ created_at d' = created_at d
    /\ fs w' = fs w.
Proof.
  intros Hc Hrec.
  rewrite (update_run image_id update_data c w Hc), Hrec.
  eexists _, _, _. split; [reflexivity|]. split; [reflexivity|].
  split; [cbn; apply lookup_insert_eq|].
  cbn. repeat split; reflexivity.
Qed.

Lemma update_patches_name_and_description_witness :
  website_images_collection custom_logo_world = Some custom_logo_store
  /\ custom_logo_store !! "logo" = Some custom_logo_doc
  /\ exists r w' d',
       update_website_image "logo"
         {| iu_name := "Logo"; iu_description := "New" |} custom_logo_world
       = (Return r, w')
       /\ record_of "logo" w' = Some d'
       /\ name d' = "Logo"
       /\ current_url d' = "/images/0b5c.png".
Proof.
  split; [reflexivity|]. split; [reflexivity|].
  destruct (update_patches_name_and_description "logo"
              {| iu_name := "Logo"; iu_description := "New" |}
              custom_logo_store custom_logo_world custom_logo_doc
              eq_refl eq_refl)
    as (r & w' & d' & Hrun & _ & Hrec & Hname & _ & Hurl & _).
  exists r, w', d'. repeat (split; [assumption|]). exact Hurl.
Defined.

(** ** What the handlers leave alone *)

(** The four ways an upload on a connected collection can go. *)
Ltac upload_cases uuid4 image_id upload c w Hc :=
  let config := fresh "config" in
  let Hcfg := fresh "Hcfg" in
  let Hct := fresh "Hct" in
  let e := fresh "e" in
  let message := fresh "message" in
  let Hopen := fresh "Hopen" in
  destruct (WEBSITE_IMAGES_CONFIG !! image_id) as [config|] eqn:Hcfg;
  [ destruct (negb (truthy (content_type upload))
              || negb (startswith (default EmptyString (content_type upload))
                         "image/")) eqn:Hct;
    [ rewrite (upload_not_image uuid4 image_id upload c w config Hc Hcfg Hct)
    | destruct (open_error (os_path_join "public/images"
                              (uuid4 ++ file_extension upload)))
        as [e|] eqn:Hopen;
      [ destruct (open_error_Exception _ _ Hopen) as [message ->];
        rewrite (upload_write_fails uuid4 image_id upload c w config message
                   Hc Hcfg Hct Hopen)
      | rewrite (upload_accepts uuid4 image_id upload c w config
                   Hc Hcfg Hct Hopen) ] ]
  | rewrite (upload_unknown uuid4 image_id upload c w Hc Hcfg) ].

Ltac reset_cases image_id c w Hc :=
  let config := fresh "config" in
  let Hcfg := fresh "Hcfg" in
  destruct (WEBSITE_IMAGES_CONFIG !! image_id) as [config|] eqn:Hcfg;
  [ rewrite (reset_known image_id c w config Hc Hcfg)
  | rewrite (reset_unknown image_id c w Hc Hcfg) ].

(** The delete modes: image-only on a known or an unknown slot, complete,
    and anything else. *)
Ltac delete_cases image_id delete_type c w Hc :=
  let config := fresh "config" in
  let Hcfg := fresh "Hcfg" in
  let H1 := fresh "Hmode" in
  let H2 := fresh "Hmode" in
  destruct (decide (delete_type = "image_only")) as [->|H1];
  [ destruct (WEBSITE_IMAGES_CONFIG !! image_id) as [config|] eqn:Hcfg;
    [ rewrite (delete_image_only_known image_id c w config Hc Hcfg)
    | rewrite (delete_image_only_unknown image_id c w Hc Hcfg) ]
  | destruct (decide (delete_type = "complete")) as [->|H2];
    [ rewrite (delete_complete_run image_id c w Hc)
    | rewrite (delete_invalid_type image_id delete_type c w Hc H1 H2) ] ].

Lemma record_of_connected other (c : collection) f t :
  record_of other {| website_images_collection := Some c;
                     fs := f; clock := t |}
  = c !! other.
Proof. reflexivity. Qed.

Lemma record_of_collection other (c : collection) (w : world) :
  website_images_collection w = Some c -> record_of other w = c !! other.
Proof. unfold record_of. intros ->. reflexivity. Qed.

(** X3: a request on one slot id never changes the record, or the absence
    of a record, of another slot id, whatever the world and whatever the
    handler answers. *)
Theorem handlers_leave_other_slots
    uuid4 image_id upload update_data delete_type (w : world) other :
  other <> image_id ->
  record_of other (upload_website_image uuid4 image_id upload w).2
  = record_of other w
  /\ record_of other (update_website_image image_id update_data w).2
     = record_of other w
  /\ record_of other (reset_website_image image_id w).2 = record_of other w
  /\ record_of other (delete_website_image image_id delete_type w).2
     = record_of other w.
Proof.
  intros Hne.
  assert (Hne' : image_id <> other) by congruence.
  destruct (website_images_collection w) as [c|] eqn:Hc.
  2: { rewrite (upload_disconnected uuid4 image_id upload w Hc),
         (update_disconnected image_id update_data w Hc),
         (reset_disconnected image_id w Hc),
         (delete_disconnected image_id delete_type w Hc).
       repeat split; reflexivity. }
  rewrite (record_of_collection other c w Hc).
  split; [|split; [|split]].
  - upload_cases uuid4 image_id upload c w Hc;
      try exact (record_of_collection other c w Hc).
    cbv zeta. cbn [snd]. rewrite record_of_connected.
    apply lookup_insert_ne, Hne'.
  - rewrite (update_run image_id update_data c w Hc).
    destruct (c !! image_id); cbn [snd]; rewrite record_of_connected;
      [apply lookup_insert_ne, Hne'|reflexivity].
  - reset_cases image_id c w Hc;
      try exact (record_of_collection other c w Hc).
    destruct (c !! image_id); cbn [snd]; rewrite record_of_connected;
      [apply lookup_insert_ne, Hne'|reflexivity].
  - delete_cases image_id delete_type c w Hc;
      try exact (record_of_collection other c w Hc).
    + cbn [snd]. destruct (c !! image_id); rewrite record_of_connected;
        apply lookup_insert_ne, Hne'.
    + destruct (c !! image_id); cbn [snd].
      * rewrite record_of_connected. apply lookup_delete_ne, Hne'.
      * exact (record_of_collection other c w Hc).
Qed.

Lemma handlers_leave_other_slots_witness :
  "logo" <> "hero_slide_1"
  /\ record_of "logo"
       (upload_website_image "77aa" "hero_slide_1" png_upload
          custom_logo_world).2
     = Some custom_logo_doc
  /\ record_of "logo"
       (delete_website_image "hero_slide_1" "image_only"
          custom_logo_world).2
     = Some custom_logo_doc.
Proof.
  assert (Hne : "logo" <> "hero_slide_1") by discriminate.
  split; [exact Hne|].
  destruct (handlers_leave_other_slots "77aa" "hero_slide_1" png_upload
              {| iu_name := "Hero"; iu_description := "New" |} "image_only"
              custom_logo_world "logo" Hne)
    as (Hup & _ & _ & Hdel).
  split; [exact Hup | exact Hdel].
Defined.

(** ** Files *)

(** X4: the metadata update and the reset never change the file system,
    in any world and whatever they answer. *)
Theorem update_and_reset_keep_files image_id update_data (w : world) :
  fs (update_website_image image_id update_data w).2 = fs w
  /\ fs (reset_website_image image_id w).2 = fs w.
Proof.
  destruct (website_images_collection w) as [c|] eqn:Hc.
  2: { rewrite (update_disconnected image_id update_data w Hc),
         (reset_disconnected image_id w Hc). split; reflexivity. }
  split.
  - rewrite (update_run image_id update_data c w Hc).
    destruct (c !! image_id); reflexivity.
  - reset_cases image_id c w Hc; [|reflexivity].
    destruct (c !! image_id); reflexivity.
Qed.

(** X5: a delete, of either mode or of none, never creates or rewrites a
    file: every file found afterwards was there before with the same
    contents. *)
Theorem delete_only_removes_files image_id delete_type (w : world) p bytes :
  fs (delete_website_image image_id delete_type w).2 !! p = Some bytes ->
  fs w !! p = Some bytes.
Proof.
  destruct (website_images_collection w) as [c|] eqn:Hc.
  2: { rewrite (delete_disconnected image_id delete_type w Hc). auto. }
  delete_cases image_id delete_type c w Hc; cbn [snd]; auto.
  - destruct (c !! image_id) as [d|]; cbn [fs]; auto.
    destruct (startswith (current_url d) "/images/"); auto.
    intros H. apply lookup_delete_Some in H. tauto.
  - destruct (c !! image_id) as [d|]; cbn [snd fs]; auto.
    destruct (startswith (current_url d) "/images/"); auto.
    intros H. apply lookup_delete_Some in H. tauto.
Qed.

Lemma delete_only_removes_files_witness :
  fs (delete_website_image "hero_slide_1" "image_only" custom_logo_world).2
    !! "public/images/0b5c.png" = Some (file png_upload)
  /\ fs custom_logo_world !! "public/images/0b5c.png"
     = Some (file png_upload).
Proof.
  assert (H : fs (delete_website_image "hero_slide_1" "image_only"
                    custom_logo_world).2
                !! "public/images/0b5c.png" = Some (file png_upload))
    by (vm_compute; reflexivity).
  split; [exact H|].
  exact (delete_only_removes_files "hero_slide_1" "image_only"
           custom_logo_world _ _ H).
Defined.

(** X6: whatever file name the client sends, a successful upload (with an
    identifier free of [/], as every UUID string is) writes the bytes to
    [public/images/<name>] for a [name] without [/], answers
    [/images/<name>], and leaves every other path as it was: no file is
    written outside the image directory and none is removed. *)
Theorem upload_writes_one_file_in_image_directory
    uuid4 image_id upload (c : collection) (w w' : world) (r : json) :
  website_images_collection w = Some c ->
  has_char "/" uuid4 = false ->
  upload_website_image uuid4 image_id upload w = (Return r, w') ->
  exists name,
    name = uuid4 ++ file_extension upload
    /\ has_char "/" name = false
    /\ member "new_url" r = Some (JStr ("/images/" ++ name))
    /\ fs w' !! ("public/images/" ++ name) = Some (file upload)
    /\ forall p, p <> "public/images/" ++ name -> fs w' !! p = fs w !! p.
Proof.
  intros Hc Huuid Hrun.
  assert (Hname : has_char "/" (uuid4 ++ file_extension upload) = false)
    by (rewrite has_char_app, Huuid, file_extension_no_sep; reflexivity).
  revert Hrun.
  upload_cases uuid4 image_id upload c w Hc; try discriminate.
  cbv zeta. rewrite (os_path_join_plain "public/images" _) by
    (first [discriminate | reflexivity | exact Hname]).
  intros Hrun. injection Hrun as <- <-.
  exists (uuid4 ++ file_extension upload).
  split; [reflexivity|]. split; [exact Hname|]. split; [reflexivity|].
  split; [cbn [fs]; apply lookup_insert_eq|].
  intros p Hp. cbn [fs]. apply lookup_insert_ne.
  intros Heq. apply Hp. symmetry. exact Heq.
Qed.

Lemma upload_writes_one_file_in_image_directory_witness :
  website_images_collection custom_logo_world = Some custom_logo_store
  /\ has_char "/" "77aa" = false
  /\ exists w',
       upload_website_image "77aa" "logo"
         {| filename := Some "../../etc/cron.d/job.sh";
            content_type := Some "image/png";
            file := [Byte.x23] |} custom_logo_world
       = (Return (JObj [("success", JBool true);
                        ("message", JStr "Image uploaded successfully");
                        ("new_url", JStr "/images/77aa.sh")]), w')
       /\ fs w' !! "public/images/77aa.sh" = Some [Byte.x23]
       /\ fs w' !! "public/images/0b5c.png" = Some (file png_upload).
Proof.
  split; [reflexivity|]. split; [reflexivity|].
  eexists. split; [vm_compute; reflexivity|].
  destruct (upload_writes_one_file_in_image_directory "77aa" "logo"
              {| filename := Some "../../etc/cron.d/job.sh";
                 content_type := Some "image/png";
                 file := [Byte.x23] |}
              custom_logo_store custom_logo_world _ _ eq_refl eq_refl
              ltac:(vm_compute; reflexivity))
    as (name & Hname & _ & _ & Hnew & Hother).
  assert (Hn : name = "77aa.sh") by (rewrite Hname; vm_compute; reflexivity).
  rewrite Hn in Hnew, Hother.
  split; [exact Hnew|].
  rewrite Hother by discriminate. reflexivity.
Defined.

(** ** Uploads followed by another request *)

(** A path without separator is one component. *)
Lemma longest_component_plain (cur : nat) (s : string) :
  has_char "/" s = false ->
  longest_component_from cur s = cur + String.length s.
Proof.
  revert cur; induction s as [|a s IH]; intros cur H; cbn.
  - lia.
  - cbn in H. apply orb_false_elim in H as [Ha Hs].
    rewrite Ha, (IH (S cur) Hs). lia.
Qed.


Lemma open_error_uploads (name : string) :
  has_char "/" name = false ->
  has_char "000"%char name = false ->
  String.length name <= 255 ->
  open_error ("uploads/" ++ name) = None.
Proof.
  intros Hsep Hnul Hlen. unfold open_error.
  rewrite has_char_app, Hnul.
  change (has_char "000"%char "uploads/") with false. cbn [orb].
  change (longest_component_from 0 ("uploads/" ++ name))
    with (Nat.max 7 (longest_component_from 0 name)).
  rewrite (longest_component_plain 0 name Hsep).
  rewrite (proj2 (Nat.ltb_ge _ _)) by lia. reflexivity.
Qed.











(** ** The records and the catalog *)

Lemma catalog_backed_insert image_id config (d : image_doc) (c : collection) :
  catalog_backed c ->
  WEBSITE_IMAGES_CONFIG !! image_id = Some config ->
  default_url d = cfg_default_url config ->
  locations d = cfg_locations config ->
  recommended_size d = cfg_recommended_size config ->
  category d = cfg_category config ->
  catalog_backed (<[image_id := d]> c).
Proof.
  intros Hinv Hcfg H1 H2 H3 H4 k e Hk.
  destruct (decide (image_id = k)) as [<-|Hne].
  - rewrite lookup_insert_eq in Hk. injection Hk as <-.
    exists config. auto.
  - rewrite lookup_insert_ne in Hk by exact Hne. exact (Hinv k e Hk).
Qed.

(** A [$set] of the handlers keeps the four catalog fields. *)
Lemma catalog_backed_patch image_id sets (d : image_doc) (c : collection) :
  catalog_backed c ->
  c !! image_id = Some d ->
  default_url (foldl assign d sets) = default_url d ->
  locations (foldl assign d sets) = locations d ->
  recommended_size (foldl assign d sets) = recommended_size d ->
  category (foldl assign d sets) = category d ->
  catalog_backed (<[image_id := foldl assign d sets]> c).
Proof.
  intros Hinv Hrec H1 H2 H3 H4.
  destruct (Hinv image_id d Hrec) as (config & Hcfg & G1 & G2 & G3 & G4).
  apply (catalog_backed_insert image_id config); auto; congruence.
Qed.

Lemma catalog_backed_delete image_id (c : collection) :
  catalog_backed c -> catalog_backed (delete image_id c).
Proof.
  intros Hinv k e Hk. apply lookup_delete_Some in Hk as [_ Hk].
  exact (Hinv k e Hk).
Qed.

(** X11: the handlers keep the records backed by the catalog.  If every
    record belongs to a catalog slot and carries that slot's
    [default_url], [locations], [recommended_size] and [category], the
    same holds of the collection after any upload, metadata update, reset
    or delete, whatever the handler answers. *)
Theorem handlers_keep_records_catalog_backed
    uuid4 image_id upload update_data delete_type
    (c : collection) (w : world) :
  website_images_collection w = Some c ->
  catalog_backed c ->
  (exists c', website_images_collection
                (upload_website_image uuid4 image_id upload w).2 = Some c'
              /\ catalog_backed c')
  /\ (exists c', website_images_collection
                   (update_website_image image_id update_data w).2 = Some c'
                 /\ catalog_backed c')
  /\ (exists c', website_images_collection
                   (reset_website_image image_id w).2 = Some c'
                 /\ catalog_backed c')
  /\ (exists c', website_images_collection
                   (delete_website_image image_id delete_type w).2 = Some c'
                 /\ catalog_backed c').
Proof.
  intros Hc Hinv.
  assert (Hsame : exists c', website_images_collection w = Some c'
                             /\ catalog_backed c') by eauto.
  split; [|split; [|split]].
  - upload_cases uuid4 image_id upload c w Hc; try exact Hsame.
    cbv zeta. eexists. split; [reflexivity|].
    destruct (c !! image_id) as [d|] eqn:Hrec.
    + apply catalog_backed_patch; auto.
    + apply (catalog_backed_insert image_id config); auto.
  - rewrite (update_run image_id update_data c w Hc).
    destruct (c !! image_id) as [d|] eqn:Hrec; [|eauto].
    eexists. split; [reflexivity|]. apply catalog_backed_patch; auto.
  - reset_cases image_id c w Hc; try exact Hsame.
    destruct (c !! image_id) as [d|] eqn:Hrec; [|eauto].
    eexists. split; [reflexivity|]. apply catalog_backed_patch; auto.
  - delete_cases image_id delete_type c w Hc; try exact Hsame.
    + cbn [snd]. destruct (c !! image_id) as [d|] eqn:Hrec.
      * eexists. split; [reflexivity|]. apply catalog_backed_patch; auto.
      * eexists. split; [reflexivity|].
        apply (catalog_backed_insert image_id config); auto.
    + destruct (c !! image_id) as [d|] eqn:Hrec; [|exact Hsame].
      eexists. split; [reflexivity|]. apply catalog_backed_delete, Hinv.
Qed.

Lemma catalog_backed_empty : catalog_backed ∅.
Proof. intros k e Hk. rewrite lookup_empty in Hk. discriminate Hk. Qed.

Lemma handlers_keep_records_catalog_backed_witness :
  website_images_collection empty_world = Some ∅
  /\ catalog_backed ∅
  /\ exists c',
       website_images_collection
         (upload_website_image "0b5c" "logo" png_upload empty_world).2
       = Some c'
       /\ catalog_backed c'.
Proof.
  split; [reflexivity|]. split; [exact catalog_backed_empty|].
  exact (proj1 (handlers_keep_records_catalog_backed "0b5c" "logo" png_upload
                  {| iu_name := "Logo"; iu_description := "New" |}
                  "image_only" ∅ empty_world eq_refl catalog_backed_empty)).
Defined.

(** ** Categories *)

Lemma get_image_categories_run (c : collection) (w : world) :
  website_images_collection w = Some c ->
  get_image_categories w
  = (Return (remove_dups (category <$> (snd <$> map_to_list c))), w).
Proof.
  intros Hc. connected w Hc.
  unfold get_image_categories, try_except_all, require_collection,
    distinct_category.
  step. reflexivity.
Qed.

(** X12: on a connected collection the categories listing answers, without
    error and without changing the world, a duplicate-free list that holds
    exactly the [category] values of the stored records; the catalog is not
    consulted, so a slot without a record contributes nothing. *)
Theorem get_image_categories_of_records (c : collection) (w : world) :
  website_images_collection w = Some c ->
  exists categories,
    get_image_categories w = (Return categories, w)
    /\ NoDup categories
    /\ (forall cat,
          cat ∈ categories
          <-> exists image_id d, c !! image_id = Some d /\ category d = cat)
    /\ (c = ∅ -> categories = []).
Proof.
  intros Hc. eexists. split; [exact (get_image_categories_run c w Hc)|].
  split; [apply NoDup_remove_dups|]. split.
  - intros cat. rewrite elem_of_remove_dups, list_elem_of_fmap. split.
    + intros (d & -> & Hd). apply list_elem_of_fmap in Hd as ([k d'] & -> & Hkd).
      exists k, d'. split; [apply elem_of_map_to_list, Hkd|reflexivity].
    + intros (k & d & Hrec & <-). exists d. split; [reflexivity|].
      apply list_elem_of_fmap. exists (k, d). split; [reflexivity|].
      apply elem_of_map_to_list, Hrec.
  - intros ->. rewrite map_to_list_empty. reflexivity.
Qed.

Lemma get_image_categories_of_records_witness :
  website_images_collection custom_logo_world = Some custom_logo_store
  /\ exists categories,
       get_image_categories custom_logo_world
       = (Return categories, custom_logo_world)
       /\ "branding" ∈ categories
       /\ ~ "hero" ∈ categories.
Proof.
  split; [reflexivity|].
  destruct (get_image_categories_of_records custom_logo_store
              custom_logo_world eq_refl) as (cats & Hrun & _ & Hmem & _).
  exists cats. split; [exact Hrun|]. split.
  - apply Hmem. exists "logo", custom_logo_doc. split; reflexivity.
  - intros Hin. apply Hmem in Hin as (k & d & Hrec & Hcat).
    unfold custom_logo_store in Hrec.
    apply lookup_singleton_Some in Hrec as [_ <-]. discriminate Hcat.
Defined.

(** ** The client address *)

Lemma split_first_no_sep sep (s : string) :
  has_char sep (split_first sep s) = false.
Proof.
  induction s as [|a s IH]; [reflexivity|].
  cbn. destruct (Ascii.eqb a sep) eqn:E; [reflexivity|].
  cbn. rewrite E, IH. reflexivity.
Qed.

Lemma str_lstrip_no_char c (s : string) :
  has_char c s = false -> has_char c (str_lstrip s) = false.
Proof.
  induction s as [|a s IH]; [auto|].
  intros H. cbn [str_lstrip]. destruct (isspace a); [|exact H].
  cbn [has_char] in H. apply orb_false_elim in H as [_ H]. exact (IH H).
Qed.

Lemma str_rstrip_no_char c (s : string) :
  has_char c s = false -> has_char c (str_rstrip s) = false.
Proof.
  induction s as [|a s IH]; [auto|].
  intros H. cbn [has_char] in H. apply orb_false_elim in H as [Ha H].
  specialize (IH H). cbn [str_rstrip].
  destruct (str_rstrip s) as [|b t].
  - destruct (isspace a); [reflexivity|]. cbn. rewrite Ha. reflexivity.
  - cbn [has_char]. cbn [has_char] in IH. rewrite Ha, IH. reflexivity.
Qed.

Lemma str_lstrip_starts_clean (s : string) : starts_clean (str_lstrip s).
Proof.
  induction s as [|a s IH]; [exact I|].
  cbn [str_lstrip]. destruct (isspace a) eqn:E; [exact IH|exact E].
Qed.

Lemma str_rstrip_starts_clean (s : string) :
  starts_clean s -> starts_clean (str_rstrip s).
Proof.
  destruct s as [|a s]; [auto|].
  cbn [starts_clean str_rstrip]. intros Ha.
  destruct (str_rstrip s); [rewrite Ha|]; exact Ha.
Qed.

Lemma str_lstrip_clean (s : string) : starts_clean s -> str_lstrip s = s.
Proof.
  destruct s as [|a s]; [reflexivity|].
  cbn [starts_clean str_lstrip]. intros ->. reflexivity.
Qed.

Lemma str_rstrip_idempotent (s : string) :
  str_rstrip (str_rstrip s) = str_rstrip s.
Proof.
  induction s as [|a s IH]; [reflexivity|].
  cbn [str_rstrip]. destruct (str_rstrip s) as [|b t] eqn:E.
  - destruct (isspace a) eqn:Ha; [reflexivity|].
    cbn [str_rstrip]. rewrite Ha. reflexivity.
  - cbn [str_rstrip]. cbn [str_rstrip] in IH. rewrite IH. reflexivity.
Qed.

Lemma str_strip_idempotent (s : string) :
  str_strip (str_strip s) = str_strip s.
Proof.
  unfold str_strip.
  rewrite (str_lstrip_clean (str_rstrip (str_lstrip s)))
    by apply str_rstrip_starts_clean, str_lstrip_starts_clean.
  apply str_rstrip_idempotent.
Qed.

(** X13: when the request carries a non-empty [X-Forwarded-For] header
    (looked up by its lowercased name), [get_client_ip] answers the first
    comma-separated element of its value with the surrounding white space
    removed, whatever the peer address is: the answer holds no comma and is
    left unchanged by a further [strip]. *)
Theorem get_client_ip_first_forwarded (request : Request) forwarded :
  headers_get request "X-Forwarded-For" = Some forwarded ->
  forwarded <> EmptyString ->
  get_client_ip request = str_strip (split_first ","%char forwarded)
  /\ has_char ","%char (get_client_ip request) = false
  /\ str_strip (get_client_ip request) = get_client_ip request.
Proof.
  intros Hget Hne.
  assert (Hip : get_client_ip request
                = str_strip (split_first ","%char forwarded)).
  { unfold get_client_ip. rewrite Hget. cbn [truthy default from_option id].
    rewrite bool_decide_eq_false_2 by exact Hne. reflexivity. }
  rewrite Hip. split; [reflexivity|]. split.
  - unfold str_strip.
    apply str_rstrip_no_char, str_lstrip_no_char, split_first_no_sep.
  - apply str_strip_idempotent.
Qed.

Lemma get_client_ip_first_forwarded_witness :
  headers_get proxied_request "X-Forwarded-For"
  = Some " 203.0.113.9 , 10.0.0.2,10.0.0.1"
  /\ " 203.0.113.9 , 10.0.0.2,10.0.0.1" <> EmptyString
  /\ get_client_ip proxied_request = "203.0.113.9"
  /\ has_char ","%char (get_client_ip proxied_request) = false
  /\ str_strip (get_client_ip proxied_request) = get_client_ip proxied_request.
Proof.
  assert (Hne : " 203.0.113.9 , 10.0.0.2,10.0.0.1" <> EmptyString)
    by discriminate.
  split; [reflexivity|]. split; [exact Hne|].
  destruct (get_client_ip_first_forwarded proxied_request
              " 203.0.113.9 , 10.0.0.2,10.0.0.1" eq_refl Hne)
    as (Hip & Hcomma & Hstrip).
  split; [rewrite Hip; reflexivity|]. split; [exact Hcomma|exact Hstrip].
Defined.

(** ** Attachments *)

Local Opaque os_path_splitext.

Lemma save_uploaded_file_run uuid4 upload (w : world) :
  let unique_filename :=
    uuid4 ++ (if truthy (filename upload)
              then (os_path_splitext
                      (default EmptyString (filename upload))).2
              else EmptyString) in
  open_error (os_path_join "uploads" unique_filename) = None ->
  save_uploaded_file uuid4 upload w
  = (Return {| original_name := filename upload;
               saved_name := unique_filename;
               file_size := length (file upload);
               fi_content_type := content_type upload |},
     set_fs (<[os_path_join "uploads" unique_filename := file upload]> (fs w))
            w).
Proof.
  cbv zeta. intros Hopen. destruct w as [oc f t].
  unfold save_uploaded_file, try_except_all, write_file, os_path_getsize.
  step. rewrite Hopen. cbn. rewrite lookup_insert_eq. reflexivity.
Qed.

(** X14: [save_uploaded_file] with an identifier free of [/] and a
    generated name that can be written (no NUL, at most 255 bytes)
    returns: it stores the bytes at [uploads/<saved_name>], where
    [saved_name] is the generated name and holds no [/] whatever file name
    the client sent, reports their length as [file_size] and the client's
    file name and content type unchanged, and touches no other path nor
    the image collection. *)
Theorem save_uploaded_file_stores uuid4 upload (w : world) :
  let unique_filename :=
    uuid4 ++ (if truthy (filename upload)
              then (os_path_splitext
                      (default EmptyString (filename upload))).2
              else EmptyString) in
  has_char "/" uuid4 = false ->
  has_char "000"%char unique_filename = false ->
  String.length unique_filename <= 255 ->
  exists info w',
    save_uploaded_file uuid4 upload w = (Return info, w')
    /\ saved_name info = unique_filename
    /\ has_char "/" (saved_name info) = false
    /\ fs w' !! ("uploads/" ++ saved_name info) = Some (file upload)
    /\ file_size info = length (file upload)
    /\ original_name info = filename upload
    /\ fi_content_type info = content_type upload
    /\ (forall p, p <> "uploads/" ++ saved_name info -> fs w' !! p = fs w !! p)
    /\ website_images_collection w' = website_images_collection w.
Proof.
  cbv zeta. set (ext := if truthy (filename upload) then _ else _).
  intros Huuid Hnul Hlen.
  assert (Hname : has_char "/" (uuid4 ++ ext) = false).
  { rewrite has_char_app, Huuid. subst ext.
    destruct (truthy _); [apply splitext_no_sep|reflexivity]. }
  assert (Hjoin : os_path_join "uploads" (uuid4 ++ ext)
                  = "uploads/" ++ uuid4 ++ ext)
    by (apply (os_path_join_plain "uploads");
        first [discriminate | reflexivity | exact Hname]).
  rewrite (save_uploaded_file_run uuid4 upload w)
    by (fold ext; rewrite Hjoin;
        exact (open_error_uploads _ Hname Hnul Hlen)).
  fold ext. rewrite Hjoin.
  eexists _, _. split; [reflexivity|]. cbn [saved_name file_size
    original_name fi_content_type set_fs fs website_images_collection].
  split; [reflexivity|].
  split; [exact Hname|]. split; [apply lookup_insert_eq|].
  repeat (split; [reflexivity|]). split; [|reflexivity].
  intros p Hp. apply lookup_insert_ne. intros Heq. apply Hp. symmetry.
  exact Heq.
Qed.

Lemma save_uploaded_file_stores_witness :
  has_char "/" "77aa" = false
  /\ exists info w',
       save_uploaded_file "77aa"
         {| filename := Some "../../etc/passwd.d/x.pdf";
            content_type := Some "application/pdf";
            file := [Byte.x25; Byte.x50] |} custom_logo_world
       = (Return info, w')
       /\ saved_name info = "77aa.pdf"
       /\ fs w' !! ("uploads/" ++ saved_name info)
          = Some [Byte.x25; Byte.x50]
       /\ file_size info = 2.
Proof.
  split; [reflexivity|].
  destruct (save_uploaded_file_stores "77aa"
              {| filename := Some "../../etc/passwd.d/x.pdf";
                 content_type := Some "application/pdf";
                 file := [Byte.x25; Byte.x50] |} custom_logo_world eq_refl
              ltac:(vm_compute; reflexivity) ltac:(vm_compute; lia))
    as (info & w' & Hrun & Hsaved & _ & Hfile & Hsize & _).
  exists info, w'. split; [exact Hrun|].
  split; [|split; [exact Hfile | exact Hsize]].
  rewrite Hsaved. vm_compute. reflexivity.
Defined.

(** * The submissions and the administrator *)

Ltac bstep :=
  unfold mbind, B_bind, M_bind, mret, B_ret, M_ret, b_raise, raise, lift;
  cbn.

(** ** Submissions *)

Section SubmissionProperties.

Variable parse_ObjectId : string -> option string.

Lemma update_submission_status_run submission_id status_update oid
    (c : gmap string submission) (b : backend) :
  contact_collection b = Some c ->
  parse_ObjectId submission_id = Some oid ->
  update_submission_status parse_ObjectId submission_id status_update b
  = match c !! oid with
    | Some s =>
        (Return (JObj [("success", JBool true);
                       ("message", JStr "Status updated successfully")]),
         {| site := (datetime_now (site b)).2;
            environ := environ b;
            contact_collection :=
              Some (<[oid := set_status_fields (su_status status_update)
                               (clock (site b)) s]> c);
            admin_collection := admin_collection b |})
    | None =>
        (Raise (HTTPException 500
                  ("Error updating status: "
                     ++ str_exn (HTTPException 404 "Submission not found"))),
         {| site := (datetime_now (site b)).2;
            environ := environ b;
            contact_collection := Some c;
            admin_collection := admin_collection b |})
    end.
Proof.
  intros Hc Hid. destruct b as [w e oc oa]. cbn in Hc. subst oc.
  unfold update_submission_status, b_try_except_all, require_contact,
    ObjectId, contact_update_status, on_contact.
  rewrite Hid. bstep.
  destruct (c !! oid) as [s|]; reflexivity.
Qed.

(** X15: the status update of a well-formed identifier that names no
    stored submission is answered with HTTP 500, not 404: the 404 raised
    inside the handler is caught by its own [except Exception] clause.
    The collection and the files are left as they were. *)
Theorem update_submission_status_unknown_is_500
    submission_id status_update oid
    (c : gmap string submission) (b : backend) :
  contact_collection b = Some c ->
  parse_ObjectId submission_id = Some oid ->
  c !! oid = None ->
  exists detail b',
    update_submission_status parse_ObjectId submission_id status_update b
    = (Raise (HTTPException 500 detail), b')
    /\ contact_collection b' = Some c
    /\ fs (site b') = fs (site b).
Proof.
  intros Hc Hid Hnone.
  rewrite (update_submission_status_run _ _ oid c b Hc Hid), Hnone.
  eexists _, _. split; [reflexivity|]. split; reflexivity.
Qed.

(** X16: whatever the state and the arguments, the status update never
    answers HTTP 404. *)
Theorem update_submission_status_never_404
    submission_id status_update (b : backend) detail b' :
  update_submission_status parse_ObjectId submission_id status_update b
  <> (Raise (HTTPException 404 detail), b').
Proof.
  unfold update_submission_status, b_try_except_all, require_contact.
  unfold mbind at 1. unfold B_bind at 1.
  destruct (contact_collection b); [|discriminate].
  match goal with |- context [match ?m b with _ => _ end] =>
    destruct (m b) as [[r|e] b1] end; discriminate.
Qed.

(** X17: the status update of a stored submission succeeds with any
    string as the new status; the document gets this [status] and an
    [updated_at], keeps every other field, and the other submissions and
    the files are untouched. *)
Theorem update_submission_status_stores_status
    submission_id status_update oid s
    (c : gmap string submission) (b : backend) :
  contact_collection b = Some c ->
  parse_ObjectId submission_id = Some oid ->
  c !! oid = Some s ->
  exists r b' c' s',
    update_submission_status parse_ObjectId submission_id status_update b
    = (Return r, b')
    /\ succeeded r
    /\ contact_collection b' = Some c'
    /\ c' !! oid = Some s'
    /\ status s' = su_status status_update
    /\ sub_updated_at s' = Some (clock (site b))
    /\ sub_name s' = sub_name s /\ sub_phone s' = sub_phone s
    /\ sub_email s' = sub_email s /\ sub_message s' = sub_message s
    /\ uploaded_files s' = uploaded_files s
    /\ submitted_at s' = submitted_at s
    /\ ip_address s' = ip_address s /\ user_agent s' = user_agent s
    /\ (forall other, other <> oid -> c' !! other = c !! other)
    /\ fs (site b') = fs (site b).
Proof.
  intros Hc Hid Hs.
  rewrite (update_submission_status_run _ _ oid c b Hc Hid), Hs.
  eexists _, _, _, _. split; [reflexivity|]. split; [reflexivity|].
  split; [reflexivity|]. split; [apply lookup_insert_eq|].
  cbn. repeat (split; [reflexivity|]). split; [|reflexivity].
  intros other Hne. apply lookup_insert_ne. congruence.
Qed.

(** The loop of [delete_submission] drops the listed files one after the
    other and never raises. *)
Lemma remove_uploads_run (files : list file_info) (w : world) e oc oa :
  remove_uploaded_files files
    {| site := w; environ := e;
       contact_collection := oc; admin_collection := oa |}
  = (Return tt,
     {| site :=
          set_fs (foldl (fun f file_info =>
                           delete (os_path_join "uploads"
                                     (saved_name file_info)) f)
                        (fs w) files) w;
        environ := e;
        contact_collection := oc; admin_collection := oa |}).
Proof.
  unfold remove_uploaded_files.
  revert w; induction files as [|file_info files IH]; intros w.
  - destruct w; reflexivity.
  - cbn [for_each foldl]. unfold mbind at 1. unfold B_bind at 1.
    set (p := os_path_join "uploads" (saved_name file_info)).
    assert (Hstep :
      (present ← lift (os_path_exists p);
       if present : bool then lift (try_warn (os_remove p)) else mret tt)
        {| site := w; environ := e;
           contact_collection := oc; admin_collection := oa |}
      = (Return tt,
         {| site := set_fs (delete p (fs w)) w; environ := e;
            contact_collection := oc; admin_collection := oa |})).
    { destruct w as [ic f t].
      unfold os_path_exists, try_warn, os_remove. bstep.
      destruct (f !! p) as [x|] eqn:E; cbn.
      - rewrite E. reflexivity.
      - unfold set_fs; cbn. rewrite delete_id by exact E. reflexivity. }
    cbv zeta. fold p. rewrite Hstep. rewrite IH.
    destruct w; reflexivity.
Qed.

Lemma delete_submission_run submission_id oid
    (c : gmap string submission) (b : backend) :
  contact_collection b = Some c ->
  parse_ObjectId submission_id = Some oid ->
  delete_submission parse_ObjectId submission_id b
  = match c !! oid with
    | Some s =>
        (Return (JObj [("success", JBool true);
                       ("message", JStr "Submission deleted successfully")]),
         {| site :=
              set_fs (foldl (fun f file_info =>
                               delete (os_path_join "uploads"
                                         (saved_name file_info)) f)
                            (fs (site b)) (uploaded_files s)) (site b);
            environ := environ b;
            contact_collection := Some (delete oid c);
            admin_collection := admin_collection b |})
    | None => (Raise (HTTPException 404 "Submission not found"), b)
    end.
Proof.
  intros Hc Hid. destruct b as [w e oc oa]. cbn in Hc. subst oc.
  unfold delete_submission, b_try_except, require_contact,
    ObjectId, contact_find_one, contact_delete_one, on_contact.
  rewrite Hid. unfold mbind, B_bind, mret, B_ret, b_raise.
  cbn [contact_collection set_contact site environ admin_collection].
  destruct (c !! oid) as [s|] eqn:Hs; [|reflexivity].
  unfold set_contact at 1.
  cbn [contact_collection site environ admin_collection].
  rewrite remove_uploads_run.
  cbn [contact_collection site environ admin_collection].
  rewrite Hs. reflexivity.
Qed.

Lemma lookup_foldl_delete (paths : list string)
    (f : gmap string (list Byte.byte)) p :
  foldl (fun f q => delete q f) f paths !! p
  = if bool_decide (p ∈ paths) then None else f !! p.
Proof.
  revert f; induction paths as [|q paths IH]; intros f; [reflexivity|].
  cbn [foldl]. rewrite IH.
  destruct (decide (p = q)) as [->|Hne].
  - rewrite lookup_delete_eq.
    rewrite (bool_decide_eq_true_2 (q ∈ q :: paths)) by (left; reflexivity).
    destruct (bool_decide _); reflexivity.
  - rewrite lookup_delete_ne by congruence.
    destruct (bool_decide (p ∈ paths)) eqn:E.
    + apply bool_decide_eq_true in E.
      rewrite bool_decide_eq_true_2 by (right; exact E). reflexivity.
    + apply bool_decide_eq_false in E.
      rewrite bool_decide_eq_false_2; [reflexivity|].
      intros H. apply elem_of_cons in H as [?|?]; [congruence|tauto].
Qed.

Lemma foldl_delete_saved (files : list file_info)
    (f : gmap string (list Byte.byte)) :
  foldl (fun f file_info =>
           delete (os_path_join "uploads" (saved_name file_info)) f) f files
  = foldl (fun f q => delete q f) f
      ((fun file_info => os_path_join "uploads" (saved_name file_info))
         <$> files).
Proof.
  revert f; induction files as [|x files IH]; intros f; [reflexivity|].
  cbn. apply IH.
Qed.

(** X18: the delete of a stored submission succeeds; afterwards the
    document is gone, every file its [uploaded_files] lists under
    [uploads] is gone, every other file is as it was, and the other
    submissions are untouched. *)
Theorem delete_submission_removes_document_and_files
    submission_id oid s (c : gmap string submission) (b : backend) :
  contact_collection b = Some c ->
  parse_ObjectId submission_id = Some oid ->
  c !! oid = Some s ->
  exists r b',
    delete_submission parse_ObjectId submission_id b = (Return r, b')
    /\ succeeded r
    /\ contact_collection b' = Some (delete oid c)
    /\ (forall file_info,
          file_info ∈ uploaded_files s ->
          fs (site b') !! os_path_join "uploads" (saved_name file_info)
          = None)
    /\ (forall p,
          (forall file_info,
             file_info ∈ uploaded_files s ->
             p <> os_path_join "uploads" (saved_name file_info)) ->
          fs (site b') !! p = fs (site b) !! p).
Proof.
  intros Hc Hid Hs.
  rewrite (delete_submission_run submission_id oid c b Hc Hid), Hs.
  eexists _, _. split; [reflexivity|]. split; [reflexivity|].
  split; [reflexivity|].
  cbn [site fs set_fs]. rewrite foldl_delete_saved.
  split.
  - intros file_info Hin. rewrite lookup_foldl_delete.
    rewrite bool_decide_eq_true_2; [reflexivity|].
    apply list_elem_of_fmap. eauto.
  - intros p Hp. rewrite lookup_foldl_delete.
    rewrite bool_decide_eq_false_2; [reflexivity|].
    intros Hin. apply list_elem_of_fmap in Hin as (file_info & -> & Hin).
    exact (Hp file_info Hin eq_refl).
Qed.

(** X19: the delete of a well-formed identifier that names no stored
    submission is answered with HTTP 404, and that of a malformed
    identifier with HTTP 500; both leave the back end as it was. *)
Theorem delete_submission_rejects
    submission_id (c : gmap string submission) (b : backend) :
  contact_collection b = Some c ->
  match parse_ObjectId submission_id with
  | Some oid =>
      c !! oid = None ->
      delete_submission parse_ObjectId submission_id b
      = (Raise (HTTPException 404 "Submission not found"), b)
  | None =>
      exists detail,
        delete_submission parse_ObjectId submission_id b
        = (Raise (HTTPException 500 detail), b)
  end.
Proof.
  intros Hc. destruct (parse_ObjectId submission_id) as [oid|] eqn:Hid.
  - intros Hnone.
    rewrite (delete_submission_run submission_id oid c b Hc Hid), Hnone.
    reflexivity.
  - unfold delete_submission, b_try_except, require_contact, ObjectId.
    rewrite Hid. unfold mbind, B_bind, b_raise. rewrite Hc.
    eexists. reflexivity.
Qed.

End SubmissionProperties.

(** ** Dicts and queries *)

Lemma dict_get_pop (key : string) (d : dict) :
  dict_get key (dict_pop key d) = None.
Proof.
  unfold dict_get, dict_pop.
  induction d as [|[k v] d IH]; [reflexivity|].
  cbn. destruct (String.eqb k key) eqn:E; cbn; [exact IH|].
  rewrite E. exact IH.
Qed.

Lemma dict_get_cons_ne (key k : string) v (d : dict) :
  k <> key -> dict_get key ((k, v) :: d) = dict_get key d.
Proof.
  intros Hne. unfold dict_get. cbn.
  rewrite (proj2 (String.eqb_neq k key) Hne). reflexivity.
Qed.

Lemma dict_get_set_eq (key : string) v (d : dict) :
  dict_get key (dict_set key v d) = Some v.
Proof.
  unfold dict_get.
  induction d as [|[k x] d IH]; cbn.
  - rewrite String.eqb_refl. reflexivity.
  - destruct (String.eqb k key) eqn:E; cbn; rewrite E; [reflexivity|].
    exact IH.
Qed.

Lemma dict_get_set_ne (key other : string) v (d : dict) :
  key <> other -> dict_get other (dict_set key v d) = dict_get other d.
Proof.
  intros Hne. unfold dict_get.
  induction d as [|[k x] d IH]; cbn.
  - rewrite (proj2 (String.eqb_neq key other) Hne). reflexivity.
  - destruct (String.eqb k key) eqn:E; cbn.
    + apply String.eqb_eq in E. subst k.
      rewrite (proj2 (String.eqb_neq key other) Hne). exact eq_refl.
    + destruct (String.eqb k other); [reflexivity|exact IH].
Qed.

(** The [$set] of the profile update leaves the password alone unless it
    lists one. *)
Lemma admin_set_keeps_password n e t (a : admin_document) :
  dict_get "password"
    (admin_fields (admin_set [("name", n); ("email", e); ("updated_at", t)] a))
  = dict_get "password" (admin_fields a).
Proof.
  unfold admin_set. cbn [admin_fields foldl fst snd].
  rewrite !dict_get_set_ne by discriminate. reflexivity.
Qed.

Lemma admin_set_email n e t rest (a : admin_document) :
  (forall kv, kv ∈ rest -> kv.1 <> "email") ->
  dict_get "email"
    (admin_fields
       (admin_set ([("name", n); ("email", e); ("updated_at", t)] ++ rest) a))
  = Some e.
Proof.
  intros Hrest. unfold admin_set. cbn [admin_fields].
  rewrite foldl_app. cbn [foldl fst snd].
  set (d := dict_set "updated_at" t _).
  assert (Hd : dict_get "email" d = Some e).
  { subst d. rewrite dict_get_set_ne by discriminate.
    apply dict_get_set_eq. }
  clearbody d. revert d Hd.
  induction rest as [|[k v] rest IH]; intros d Hd; [exact Hd|].
  cbn [foldl fst snd]. apply IH.
  - intros kv Hkv. apply Hrest. right. exact Hkv.
  - rewrite dict_get_set_ne; [exact Hd|].
    apply (Hrest (k, v)). left.
Qed.

Lemma matches_one key v (a : admin_document) :
  matches [(key, v)] a = true <-> dict_get key (admin_fields a) = Some v.
Proof.
  unfold matches. cbn. rewrite andb_true_r. apply bool_decide_eq_true.
Qed.

Lemma matches_two k1 v1 k2 v2 (a : admin_document) :
  matches [(k1, v1); (k2, v2)] a = true
  <-> dict_get k1 (admin_fields a) = Some v1
      /\ dict_get k2 (admin_fields a) = Some v2.
Proof.
  unfold matches. cbn. rewrite andb_true_r, andb_true_iff.
  rewrite !bool_decide_eq_true. reflexivity.
Qed.

(** [update_one] changes the document [find_one] finds. *)
Lemma update_first_found query fields (l : list admin_document) a :
  List.find (matches query) l = Some a ->
  exists l1 l2,
    l = (l1 ++ a :: l2)%list
    /\ List.find (matches query) l1 = None
    /\ update_first query fields l
       = Some (l1 ++ admin_set fields a :: l2)%list.
Proof.
  induction l as [|x l IH]; [discriminate|].
  cbn. destruct (matches query x) eqn:E.
  - intros [= ->]. exists [], l. repeat split; reflexivity.
  - intros Hfind. destruct (IH Hfind) as (l1 & l2 & -> & Hnone & Hup).
    exists (x :: l1), l2. split; [reflexivity|]. split.
    + cbn. rewrite E. exact Hnone.
    + rewrite Hup. reflexivity.
Qed.

Lemma update_first_missing query fields (l : list admin_document) :
  List.find (matches query) l = None -> update_first query fields l = None.
Proof.
  induction l as [|x l IH]; [reflexivity|].
  cbn. destruct (matches query x); [discriminate|].
  intros H. rewrite (IH H). reflexivity.
Qed.

Lemma find_is_Some {A} (f : A -> bool) (l : list A) x :
  In x l -> f x = true -> exists y, List.find f l = Some y /\ f y = true.
Proof.
  induction l as [|z l IH]; [intros []|].
  intros [-> | Hin] Hf; cbn.
  - rewrite Hf. eauto.
  - destruct (f z) eqn:E; [eauto|]. exact (IH Hin Hf).
Qed.

(** ** The administrator *)

Ltac admin_connected b Hl :=
  let w := fresh "w" in
  let e := fresh "e" in
  let oc := fresh "oc" in
  let oa := fresh "oa" in
  destruct b as [w e oc oa]; cbn in Hl; subst oa.

Lemma admin_login_run login_data (l : list admin_document) (b : backend) :
  admin_collection b = Some l ->
  admin_login login_data b
  = match List.find (matches [("email", BStr (al_email login_data));
                              ("password", BStr (al_password login_data))])
                    l with
    | Some admin =>
        (Return {| ar_success := true;
                   ar_message := "Login successful";
                   ar_admin := without_password admin |}, b)
    | None => (Raise (HTTPException 401 "Invalid email or password"), b)
    end.
Proof.
  intros Hl. admin_connected b Hl.
  unfold admin_login, b_try_except, require_admin, admin_find_one, on_admin.
  unfold mbind, B_bind, mret, B_ret, b_raise.
  cbn [admin_collection set_admin site environ contact_collection].
  destruct (List.find _ l); reflexivity.
Qed.

Lemma get_admin_profile_run (l : list admin_document) (b : backend) :
  admin_collection b = Some l ->
  get_admin_profile b
  = match List.find (matches [("email", BStr (ADMIN_EMAIL b))]) l with
    | Some admin => (Return (without_password admin), b)
    | None => (Raise (HTTPException 404 "Admin not found"), b)
    end.
Proof.
  intros Hl. admin_connected b Hl.
  unfold get_admin_profile, b_try_except, require_admin, admin_find_one,
    on_admin.
  unfold mbind, B_bind, mret, B_ret, b_raise.
  cbn [admin_collection set_admin site environ contact_collection].
  destruct (List.find _ l); reflexivity.
Qed.

Lemma without_password_hides (a : admin_document) :
  dict_get "password" (without_password a) = None.
Proof.
  unfold without_password, admin_with_str_id. cbn [admin_id admin_fields].
  rewrite dict_get_cons_ne by discriminate. apply dict_get_pop.
Qed.

(** X20: a login that succeeds answers a document without [password]
    key, was given the email and the password of a stored document, and
    leaves the back end as it was. *)
Theorem admin_login_hides_password
    login_data (b b' : backend) (response : admin_response) :
  admin_login login_data b = (Return response, b') ->
  dict_get "password" (ar_admin response) = None
  /\ b' = b
  /\ exists l admin,
       admin_collection b = Some l
       /\ In admin l
       /\ dict_get "email" (admin_fields admin)
          = Some (BStr (al_email login_data))
       /\ dict_get "password" (admin_fields admin)
          = Some (BStr (al_password login_data)).
Proof.
  destruct (admin_collection b) as [l|] eqn:Hl.
  2: { unfold admin_login, require_admin. unfold mbind, B_bind.
       rewrite Hl. discriminate. }
  rewrite (admin_login_run login_data l b Hl).
  destruct (List.find _ l) as [admin|] eqn:Hfind; [|discriminate].
  intros [= <- <-]. cbn [ar_admin].
  split; [apply without_password_hides|]. split; [reflexivity|].
  apply find_some in Hfind as [Hin Hm]. apply matches_two in Hm.
  exists l, admin. tauto.
Qed.

(** X21: a login with an email and a password that no stored document
    carries together is answered with HTTP 401 and changes nothing. *)
Theorem admin_login_rejects_unknown_credentials
    login_data (l : list admin_document) (b : backend) :
  admin_collection b = Some l ->
  (forall admin,
     In admin l ->
     dict_get "email" (admin_fields admin)
     = Some (BStr (al_email login_data)) ->
     dict_get "password" (admin_fields admin)
     <> Some (BStr (al_password login_data))) ->
  admin_login login_data b
  = (Raise (HTTPException 401 "Invalid email or password"), b).
Proof.
  intros Hl Hnone. rewrite (admin_login_run login_data l b Hl).
  destruct (List.find _ l) as [admin|] eqn:Hfind; [|reflexivity].
  apply find_some in Hfind as [Hin Hm]. apply matches_two in Hm as [He Hp].
  destruct (Hnone admin Hin He Hp).
Qed.

Lemma ADMIN_EMAIL_environ (b b' : backend) :
  environ b' = environ b -> ADMIN_EMAIL b' = ADMIN_EMAIL b.
Proof. unfold ADMIN_EMAIL. intros ->. reflexivity. Qed.

Lemma ADMIN_PASSWORD_environ (b b' : backend) :
  environ b' = environ b -> ADMIN_PASSWORD b' = ADMIN_PASSWORD b.
Proof. unfold ADMIN_PASSWORD. intros ->. reflexivity. Qed.

Lemma find_none_all {A} (f : A -> bool) (l : list A) :
  (forall x, In x l -> f x = false) -> List.find f l = None.
Proof.
  induction l as [|x l IH]; [reflexivity|].
  intros H. cbn. rewrite (H x (or_introl eq_refl)).
  apply IH. intros y Hy. apply H. right. exact Hy.
Qed.

Lemma find_app_none {A} (f : A -> bool) (l l' : list A) :
  List.find f l = None -> List.find f (l ++ l')%list = List.find f l'.
Proof.
  induction l as [|x l IH]; [reflexivity|].
  cbn. destruct (f x); [discriminate|]. exact IH.
Qed.

Local Opaque ADMIN_EMAIL ADMIN_PASSWORD.

Lemma update_admin_profile_run update_data
    (l : list admin_document) admin (b : backend) :
  admin_collection b = Some l ->
  List.find (matches [("email", BStr (ADMIN_EMAIL b))]) l = Some admin ->
  update_admin_profile update_data b
  = let b1 := {| site := (datetime_now (site b)).2;
                 environ := environ b;
                 contact_collection := contact_collection b;
                 admin_collection := Some l |} in
    let base := [("name", BStr (au_name update_data));
                 ("email", BStr (au_email update_data));
                 ("updated_at", BTime (clock (site b)))] in
    let finish := fun fields : dict =>
      match update_first [("email", BStr (ADMIN_EMAIL b))] fields l with
      | Some l' =>
          match List.find (matches [("email", BStr (au_email update_data))])
                          l' with
          | Some updated =>
              (Return {| ar_success := true;
                         ar_message := "Profile updated successfully";
                         ar_admin := without_password updated |},
               set_admin l' b1)
          | None =>
              (Raise (HTTPException 500
                        ("Error updating profile: "
                           ++ "'NoneType' object has no attribute 'pop'")),
               set_admin l' b1)
          end
      | None => (Raise (HTTPException 404 "Admin not found"), b1)
      end in
    if truthy (au_password update_data)
       && truthy (au_currentPassword update_data)
    then
      match dict_get "password" (admin_fields admin) with
      | None =>
          (Raise (HTTPException 500
                    ("Error updating profile: " ++ "'password'")), b1)
      | Some stored =>
          if bool_decide
               (stored
                <> BStr (default EmptyString
                           (au_currentPassword update_data)))
          then (Raise (HTTPException 400 "Current password is incorrect"), b1)
          else finish (base
                         ++ [("password",
                              BStr (default EmptyString
                                      (au_password update_data)))])%list
      end
    else finish base.
Proof.
  intros Hl Hfind. admin_connected b Hl.
  cbn [site] in *.
  unfold update_admin_profile, b_try_except, require_admin, admin_find_one,
    admin_update_one, on_admin.
  unfold mbind, B_bind, mret, B_ret, b_raise, lift.
  cbn [admin_collection set_admin site environ contact_collection
       datetime_now fst snd clock fs website_images_collection].
  rewrite Hfind.
  cbn [admin_collection set_admin site environ contact_collection
       datetime_now fst snd clock fs website_images_collection].
  destruct (truthy (au_password update_data)
            && truthy (au_currentPassword update_data)).
  - cbn [admin_collection set_admin site environ contact_collection].
    destruct (dict_get "password" (admin_fields admin)) as [stored|];
      [|reflexivity].
    destruct (bool_decide _); [reflexivity|].
    cbn [admin_collection set_admin site environ contact_collection].
    destruct (update_first _ _ l) as [l'|]; [|reflexivity].
    cbn [matched_count].
    rewrite (bool_decide_eq_false_2 (1 = 0)) by discriminate.
    cbn [admin_collection set_admin site environ contact_collection].
    destruct (List.find _ l'); reflexivity.
  - cbn [admin_collection set_admin site environ contact_collection].
    destruct (update_first _ _ l) as [l'|]; [|reflexivity].
    cbn [matched_count].
    rewrite (bool_decide_eq_false_2 (1 = 0)) by discriminate.
    cbn [admin_collection set_admin site environ contact_collection].
    destruct (List.find _ l'); reflexivity.
Qed.

Lemma update_admin_profile_no_admin update_data
    (l : list admin_document) (b : backend) :
  admin_collection b = Some l ->
  List.find (matches [("email", BStr (ADMIN_EMAIL b))]) l = None ->
  update_admin_profile update_data b
  = (Raise (HTTPException 404 "Admin not found"), b).
Proof.
  intros Hl Hfind. admin_connected b Hl.
  unfold update_admin_profile, b_try_except, require_admin, admin_find_one,
    on_admin.
  unfold mbind, B_bind, mret, B_ret, b_raise.
  cbn [admin_collection set_admin site environ contact_collection].
  rewrite Hfind. reflexivity.
Qed.

(** X22: a profile update that asks for a new password with a current
    password other than the stored one is answered with HTTP 400 and
    leaves the admin documents as they were. *)
Theorem update_admin_profile_wrong_current_password
    update_data (l : list admin_document) admin (b : backend)
    new current stored :
  admin_collection b = Some l ->
  List.find (matches [("email", BStr (ADMIN_EMAIL b))]) l = Some admin ->
  au_password update_data = Some new -> new <> EmptyString ->
  au_currentPassword update_data = Some current -> current <> EmptyString ->
  dict_get "password" (admin_fields admin) = Some stored ->
  stored <> BStr current ->
  exists b',
    update_admin_profile update_data b
    = (Raise (HTTPException 400 "Current password is incorrect"), b')
    /\ admin_collection b' = Some l.
Proof.
  intros Hl Hfind Hnew Hnew' Hcur Hcur' Hstored Hne.
  rewrite (update_admin_profile_run update_data l admin b Hl Hfind).
  cbv zeta. rewrite Hnew, Hcur, Hstored. cbn [truthy default from_option id].
  rewrite !(bool_decide_eq_false_2 (_ = EmptyString)) by assumption.
  cbn [negb andb].
  rewrite bool_decide_eq_true_2 by exact Hne.
  eexists. split; reflexivity.
Qed.

(** X23: a profile update that succeeds without both a new and a current
    password (either missing or empty) changes no stored password, and its
    answer carries no [password] key. *)
Theorem update_admin_profile_keeps_password
    update_data (l : list admin_document) (b b' : backend)
    (response : admin_response) :
  admin_collection b = Some l ->
  truthy (au_password update_data)
  && truthy (au_currentPassword update_data) = false ->
  update_admin_profile update_data b = (Return response, b') ->
  exists l',
    admin_collection b' = Some l'
    /\ map (fun a => dict_get "password" (admin_fields a)) l'
       = map (fun a => dict_get "password" (admin_fields a)) l
    /\ dict_get "password" (ar_admin response) = None.
Proof.
  intros Hl Hboth.
  destruct (List.find (matches [("email", BStr (ADMIN_EMAIL b))]) l)
    as [admin|] eqn:Hfind.
  2: { rewrite (update_admin_profile_no_admin update_data l b Hl Hfind).
       discriminate. }
  rewrite (update_admin_profile_run update_data l admin b Hl Hfind).
  cbv zeta. rewrite Hboth.
  destruct (update_first_found _
              [("name", BStr (au_name update_data));
               ("email", BStr (au_email update_data));
               ("updated_at", BTime (clock (site b)))] l admin Hfind)
    as (l1 & l2 & -> & _ & ->).
  destruct (List.find (matches [("email", BStr (au_email update_data))]) _)
    as [updated|]; [|discriminate].
  intros [= <- <-]. eexists. split; [reflexivity|]. split.
  - rewrite !map_app. cbn [map]. rewrite admin_set_keeps_password.
    reflexivity.
  - apply without_password_hides.
Qed.

(** X24: a profile update that gives the stored password as current
    password and a new one succeeds, and a login with the new email and
    the new password then succeeds. *)
Theorem update_admin_profile_then_login
    update_data (l : list admin_document) admin (b : backend) new current :
  admin_collection b = Some l ->
  List.find (matches [("email", BStr (ADMIN_EMAIL b))]) l = Some admin ->
  au_password update_data = Some new -> new <> EmptyString ->
  au_currentPassword update_data = Some current -> current <> EmptyString ->
  dict_get "password" (admin_fields admin) = Some (BStr current) ->
  exists response b' response',
    update_admin_profile update_data b = (Return response, b')
    /\ admin_login {| al_email := au_email update_data;
                      al_password := new |} b'
       = (Return response', b').
Proof.
  intros Hl Hfind Hnew Hnew' Hcur Hcur' Hstored.
  rewrite (update_admin_profile_run update_data l admin b Hl Hfind).
  cbv zeta. rewrite Hnew, Hcur, Hstored. cbn [truthy default from_option id].
  rewrite !(bool_decide_eq_false_2 (_ = EmptyString)) by assumption.
  cbn [negb andb].
  rewrite bool_decide_eq_false_2 by (intros H; apply H; reflexivity).
  set (fields := ([("name", BStr (au_name update_data));
                   ("email", BStr (au_email update_data));
                   ("updated_at", BTime (clock (site b)))]
                  ++ [("password", BStr new)])%list).
  destruct (update_first_found _ fields l admin Hfind)
    as (l1 & l2 & _ & _ & ->).
  assert (Hemail : dict_get "email" (admin_fields (admin_set fields admin))
                   = Some (BStr (au_email update_data))).
  { apply admin_set_email. intros kv Hkv.
    apply list_elem_of_singleton in Hkv. subst kv. discriminate. }
  assert (Hpass : dict_get "password" (admin_fields (admin_set fields admin))
                  = Some (BStr new)).
  { unfold admin_set, fields. cbn [admin_fields].
    rewrite foldl_app. cbn [foldl fst snd]. apply dict_get_set_eq. }
  assert (Hin : In (admin_set fields admin)
                   (l1 ++ admin_set fields admin :: l2)%list)
    by (apply in_or_app; right; left; reflexivity).
  destruct (find_is_Some (matches [("email", BStr (au_email update_data))])
              _ _ Hin (proj2 (matches_one _ _ _) Hemail))
    as (updated & -> & _).
  destruct (find_is_Some
              (matches [("email", BStr (au_email update_data));
                        ("password", BStr new)])
              _ _ Hin (proj2 (matches_two _ _ _ _ _) (conj Hemail Hpass)))
    as (found & Hfound & _).
  eexists _, _, _. split; [reflexivity|].
  erewrite admin_login_run by reflexivity. cbn [al_email al_password].
  rewrite Hfound. reflexivity.
Qed.

(** X25: once the only admin document has been given, by a successful
    profile update, an email other than [ADMIN_EMAIL], the profile can no
    longer be read nor updated: both handlers answer HTTP 404. *)
Theorem update_admin_profile_email_change_locks_profile
    update_data update_again admin (b b' : backend)
    (response : admin_response) :
  admin_collection b = Some [admin] ->
  au_email update_data <> ADMIN_EMAIL b ->
  update_admin_profile update_data b = (Return response, b') ->
  get_admin_profile b' = (Raise (HTTPException 404 "Admin not found"), b')
  /\ update_admin_profile update_again b'
     = (Raise (HTTPException 404 "Admin not found"), b').
Proof.
  intros Hl Hne.
  destruct (List.find (matches [("email", BStr (ADMIN_EMAIL b))]) [admin])
    as [found|] eqn:Hfind.
  2: { rewrite (update_admin_profile_no_admin update_data _ b Hl Hfind).
       discriminate. }
  assert (found = admin) as ->.
  { destruct (find_some _ _ Hfind) as [[Heq|[]] _]. symmetry. exact Heq. }
  rewrite (update_admin_profile_run update_data _ admin b Hl Hfind).
  cbv zeta.
  assert (Hlocked : forall rest,
    (forall kv, kv ∈ rest -> kv.1 <> "email") ->
    forall b1,
      environ b1 = environ b ->
      match update_first [("email", BStr (ADMIN_EMAIL b))]
              ([("name", BStr (au_name update_data));
                ("email", BStr (au_email update_data));
                ("updated_at", BTime (clock (site b)))] ++ rest)%list
              [admin] with
      | Some l' =>
          match List.find
                  (matches [("email", BStr (au_email update_data))]) l' with
          | Some updated =>
              (Return {| ar_success := true;
                         ar_message := "Profile updated successfully";
                         ar_admin := without_password updated |},
               set_admin l' b1)
          | None =>
              (Raise (HTTPException 500
                        ("Error updating profile: "
                           ++ "'NoneType' object has no attribute 'pop'")),
               set_admin l' b1)
          end
      | None => (Raise (HTTPException 404 "Admin not found"), b1)
      end = (Return response, b') ->
      get_admin_profile b' = (Raise (HTTPException 404 "Admin not found"), b')
      /\ update_admin_profile update_again b'
         = (Raise (HTTPException 404 "Admin not found"), b')).
  { intros rest Hrest b1 Henv.
    destruct (update_first_found _
                ([("name", BStr (au_name update_data));
                  ("email", BStr (au_email update_data));
                  ("updated_at", BTime (clock (site b)))] ++ rest)%list
                [admin] admin Hfind) as (l1 & l2 & Heq & _ & ->).
    destruct l1 as [|x l1]; [|destruct l1; discriminate Heq].
    injection Heq as <-. cbn [app].
    set (a' := admin_set _ admin).
    assert (Hemail : dict_get "email" (admin_fields a')
                     = Some (BStr (au_email update_data)))
      by (apply admin_set_email, Hrest).
    destruct (List.find _ [a']) as [updated|]; [|discriminate].
    intros [= <- <-].
    assert (Hadm : ADMIN_EMAIL (set_admin [a'] b1) = ADMIN_EMAIL b)
      by (apply ADMIN_EMAIL_environ; exact Henv).
    assert (Hnone : List.find
                      (matches [("email",
                                 BStr (ADMIN_EMAIL (set_admin [a'] b1)))])
                      [a'] = None).
    { rewrite Hadm. apply find_none_all. intros x [<-|[]].
      destruct (matches _ a') eqn:E; [|reflexivity].
      apply matches_one in E. rewrite Hemail in E. congruence. }
    split.
    - rewrite (get_admin_profile_run [a'] (set_admin [a'] b1) eq_refl), Hnone.
      reflexivity.
    - exact (update_admin_profile_no_admin update_again [a']
               (set_admin [a'] b1) eq_refl Hnone).
  }
  destruct (truthy (au_password update_data)
            && truthy (au_currentPassword update_data)).
  - destruct (dict_get "password" (admin_fields admin)) as [stored|];
      [|discriminate].
    destruct (bool_decide _); [discriminate|].
    apply Hlocked; [|reflexivity].
    intros kv Hkv. apply list_elem_of_singleton in Hkv. subst kv. discriminate.
  - apply (Hlocked []); [|reflexivity].
    intros kv Hkv. apply elem_of_nil in Hkv. destruct Hkv.
Qed.

Lemma initialize_admin_existing new_id
    (l : list admin_document) admin (b : backend) :
  admin_collection b = Some l ->
  List.find (matches [("email", BStr (ADMIN_EMAIL b))]) l = Some admin ->
  initialize_admin new_id b = (Return tt, b).
Proof.
  intros Hl Hfind. admin_connected b Hl.
  unfold initialize_admin, b_try_print, admin_find_one, on_admin.
  unfold mbind, B_bind, mret, B_ret.
  cbn [admin_collection set_admin site environ contact_collection].
  rewrite Hfind. reflexivity.
Qed.

Lemma initialize_admin_fresh new_id (l : list admin_document) (b : backend) :
  admin_collection b = Some l ->
  List.find (matches [("email", BStr (ADMIN_EMAIL b))]) l = None ->
  existsb (fun a => String.eqb (admin_id a) new_id) l = false ->
  initialize_admin new_id b
  = (Return tt,
     {| site := (datetime_now (datetime_now (site b)).2).2;
        environ := environ b;
        contact_collection := contact_collection b;
        admin_collection :=
          Some (l ++ [{| admin_id := new_id;
                         admin_fields :=
                           [("name", BStr "MECHGENZ Admin");
                            ("email", BStr (ADMIN_EMAIL b));
                            ("password", BStr (ADMIN_PASSWORD b));
                            ("role", BStr "admin");
                            ("created_at", BTime (clock (site b)));
                            ("updated_at", BTime (S (clock (site b))))] |}])
          %list |}).
Proof.
  intros Hl Hfind Hfresh. admin_connected b Hl.
  unfold initialize_admin, b_try_print, admin_find_one, admin_insert_one,
    on_admin.
  unfold mbind, B_bind, mret, B_ret, lift.
  cbn [admin_collection set_admin site environ contact_collection
       datetime_now fst snd clock fs website_images_collection].
  rewrite Hfind.
  cbn [admin_collection set_admin site environ contact_collection
       datetime_now fst snd clock fs website_images_collection].
  rewrite Hfresh. reflexivity.
Qed.

(** X26: on a connected collection without a document for [ADMIN_EMAIL],
    [initialize_admin] (given a fresh identifier) creates the account: a
    login with [ADMIN_EMAIL] and [ADMIN_PASSWORD] then succeeds with the
    role [admin], and a further [initialize_admin] changes nothing. *)
Theorem initialize_admin_creates_account
    new_id (l : list admin_document) (b : backend) :
  admin_collection b = Some l ->
  List.find (matches [("email", BStr (ADMIN_EMAIL b))]) l = None ->
  (forall a, In a l -> admin_id a <> new_id) ->
  exists b' response,
    initialize_admin new_id b = (Return tt, b')
    /\ admin_login {| al_email := ADMIN_EMAIL b;
                      al_password := ADMIN_PASSWORD b |} b'
       = (Return response, b')
    /\ dict_get "role" (ar_admin response) = Some (BStr "admin")
    /\ dict_get "password" (ar_admin response) = None
    /\ forall other_id, initialize_admin other_id b' = (Return tt, b').
Proof.
  intros Hl Hfind Hfresh.
  assert (Hex : existsb (fun a => String.eqb (admin_id a) new_id) l = false).
  { apply not_true_is_false. intros H.
    apply existsb_exists in H as (a & Hin & Ha).
    apply String.eqb_eq in Ha. exact (Hfresh a Hin Ha). }
  rewrite (initialize_admin_fresh new_id l b Hl Hfind Hex).
  set (doc := {| admin_id := new_id; admin_fields := _ |}).
  set (b' := {| site := _; environ := environ b;
                contact_collection := _; admin_collection := _ |}).
  assert (Henv : ADMIN_EMAIL b' = ADMIN_EMAIL b)
    by (apply ADMIN_EMAIL_environ; reflexivity).
  assert (Hlogin :
    List.find (matches [("email", BStr (ADMIN_EMAIL b));
                        ("password", BStr (ADMIN_PASSWORD b))])
              (l ++ [doc])%list = Some doc).
  { rewrite find_app_none.
    - cbn [List.find]. rewrite (proj2 (matches_two _ _ _ _ doc)).
      + reflexivity.
      + split; reflexivity.
    - apply find_none_all. intros a Hin.
      pose proof (find_none _ _ Hfind a Hin) as Hno.
      destruct (matches [("email", BStr (ADMIN_EMAIL b));
                         ("password", BStr (ADMIN_PASSWORD b))] a) eqn:E;
        [|reflexivity].
      apply matches_two in E as [E _]. apply matches_one in E. congruence. }
  exists b'. eexists. split; [reflexivity|]. split.
  { rewrite (admin_login_run _ (l ++ [doc])%list b' eq_refl).
    cbn [al_email al_password]. rewrite Hlogin. reflexivity. }
  split; [reflexivity|]. split; [apply without_password_hides|].
  intros other_id.
  apply (initialize_admin_existing other_id (l ++ [doc])%list doc b' eq_refl).
  rewrite Henv, find_app_none by exact Hfind.
  cbn [List.find]. rewrite (proj2 (matches_one _ _ doc)); reflexivity.
Qed.

(** X27: [initialize_admin] never raises; it changes nothing while the
    collection global is [None], and nothing when a document for
    [ADMIN_EMAIL] is already stored. *)
Theorem initialize_admin_is_safe new_id (b : backend) :
  (initialize_admin new_id b).1 = Return tt
  /\ (admin_collection b = None -> (initialize_admin new_id b).2 = b)
  /\ (forall l admin,
        admin_collection b = Some l ->
        List.find (matches [("email", BStr (ADMIN_EMAIL b))]) l = Some admin ->
        (initialize_admin new_id b).2 = b).
Proof.
  split; [|split].
  - unfold initialize_admin. destruct (admin_collection b); [|reflexivity].
    unfold b_try_print.
    match goal with |- context [match ?m b with _ => _ end] =>
      destruct (m b) as [[[]|e] b1] end; reflexivity.
  - intros Hl. unfold initialize_admin. rewrite Hl. reflexivity.
  - intros l admin Hl Hfind.
    rewrite (initialize_admin_existing new_id l admin b Hl Hfind).
    reflexivity.
Qed.

(** ** The statements above on the samples *)

Lemma update_submission_status_unknown_is_500_witness :
  contact_collection sample_backend
  = Some {[ "65f0a1b2c3d4e5f6a7b8c9d0" := sample_submission ]}
  /\ sample_ObjectId "000000000000000000000000"
     = Some "000000000000000000000000"
  /\ exists detail b',
       update_submission_status sample_ObjectId "000000000000000000000000"
         {| su_status := "read" |} sample_backend
       = (Raise (HTTPException 500 detail), b')
       /\ contact_collection b' = contact_collection sample_backend
       /\ fs (site b') = fs (site sample_backend).
Proof.
  split; [reflexivity|]. split; [reflexivity|].
  exact (update_submission_status_unknown_is_500 sample_ObjectId
           "000000000000000000000000" {| su_status := "read" |}
           "000000000000000000000000" _ sample_backend
           eq_refl eq_refl eq_refl).
Defined.

Lemma update_submission_status_stores_status_witness :
  contact_collection sample_backend
  = Some {[ "65f0a1b2c3d4e5f6a7b8c9d0" := sample_submission ]}
  /\ sample_ObjectId "65f0a1b2c3d4e5f6a7b8c9d0"
     = Some "65f0a1b2c3d4e5f6a7b8c9d0"
  /\ exists r b' c' s',
       update_submission_status sample_ObjectId "65f0a1b2c3d4e5f6a7b8c9d0"
         {| su_status := "whatever the client sends" |} sample_backend
       = (Return r, b')
       /\ contact_collection b' = Some c'
       /\ c' !! "65f0a1b2c3d4e5f6a7b8c9d0" = Some s'
       /\ status s' = "whatever the client sends"
       /\ sub_message s' = "Quote, please".
Proof.
  split; [reflexivity|]. split; [reflexivity|].
  destruct (update_submission_status_stores_status sample_ObjectId
              "65f0a1b2c3d4e5f6a7b8c9d0"
              {| su_status := "whatever the client sends" |}
              "65f0a1b2c3d4e5f6a7b8c9d0" sample_submission _ sample_backend
              eq_refl eq_refl ltac:(vm_compute; reflexivity))
    as (r & b' & c' & s' & Hrun & _ & Hc & Hs & Hst & _ & _ & _ & _ & Hmsg & _).
  exists r, b', c', s'. repeat (split; [assumption|]). exact Hmsg.
Defined.

Lemma delete_submission_removes_document_and_files_witness :
  contact_collection sample_backend
  = Some {[ "65f0a1b2c3d4e5f6a7b8c9d0" := sample_submission ]}
  /\ sample_ObjectId "65f0a1b2c3d4e5f6a7b8c9d0"
     = Some "65f0a1b2c3d4e5f6a7b8c9d0"
  /\ exists r b',
       delete_submission sample_ObjectId "65f0a1b2c3d4e5f6a7b8c9d0"
         sample_backend = (Return r, b')
       /\ contact_collection b'
          = Some (delete "65f0a1b2c3d4e5f6a7b8c9d0"
                    {[ "65f0a1b2c3d4e5f6a7b8c9d0" := sample_submission ]})
       /\ fs (site b') !! "uploads/a1.pdf" = None
       /\ fs (site b') !! "uploads/zz.txt" = Some [Byte.x68].
Proof.
  split; [reflexivity|]. split; [reflexivity|].
  destruct (delete_submission_removes_document_and_files sample_ObjectId
              "65f0a1b2c3d4e5f6a7b8c9d0" "65f0a1b2c3d4e5f6a7b8c9d0"
              sample_submission _ sample_backend
              eq_refl eq_refl ltac:(vm_compute; reflexivity))
    as (r & b' & Hrun & _ & Hc & Hgone & Hkept).
  exists r, b'. split; [exact Hrun|]. split; [exact Hc|]. split.
  - replace "uploads/a1.pdf"
      with (os_path_join "uploads"
              (saved_name {| original_name := Some "plan.pdf";
                             saved_name := "a1.pdf"; file_size := 2;
                             fi_content_type := Some "application/pdf" |}))
      by (vm_compute; reflexivity).
    apply Hgone. left.
  - rewrite Hkept; [vm_compute; reflexivity|].
    intros file_info Hin.
    apply elem_of_cons in Hin as [->|Hin];
      [vm_compute; discriminate|].
    apply list_elem_of_singleton in Hin as ->. vm_compute; discriminate.
Defined.

Lemma delete_submission_rejects_witness :
  contact_collection sample_backend
  = Some {[ "65f0a1b2c3d4e5f6a7b8c9d0" := sample_submission ]}
  /\ delete_submission sample_ObjectId "000000000000000000000000"
       sample_backend
     = (Raise (HTTPException 404 "Submission not found"), sample_backend)
  /\ exists detail,
       delete_submission sample_ObjectId "not-an-id" sample_backend
       = (Raise (HTTPException 500 detail), sample_backend).
Proof.
  split; [reflexivity|]. split.
  - exact (delete_submission_rejects sample_ObjectId
             "000000000000000000000000" _ sample_backend eq_refl eq_refl).
  - exact (delete_submission_rejects sample_ObjectId "not-an-id" _
             sample_backend eq_refl).
Defined.

Lemma admin_login_hides_password_witness :
  admin_login {| al_email := "mechgenz4@gmail.com";
                 al_password := "mechgenz4" |} sample_backend
  = (Return {| ar_success := true;
               ar_message := "Login successful";
               ar_admin := [("_id", BStr "65f0a1b2c3d4e5f601234567");
                            ("name", BStr "MECHGENZ Admin");
                            ("email", BStr "mechgenz4@gmail.com");
                            ("role", BStr "admin");
                            ("created_at", BTime 0);
                            ("updated_at", BTime 1)] |}, sample_backend)
  /\ dict_get "password"
       [("_id", BStr "65f0a1b2c3d4e5f601234567");
        ("name", BStr "MECHGENZ Admin");
        ("email", BStr "mechgenz4@gmail.com");
        ("role", BStr "admin");
        ("created_at", BTime 0);
        ("updated_at", BTime 1)] = None.
Proof.
  assert (Hrun :
    admin_login {| al_email := "mechgenz4@gmail.com";
                   al_password := "mechgenz4" |} sample_backend
    = (Return {| ar_success := true;
                 ar_message := "Login successful";
                 ar_admin := [("_id", BStr "65f0a1b2c3d4e5f601234567");
                              ("name", BStr "MECHGENZ Admin");
                              ("email", BStr "mechgenz4@gmail.com");
                              ("role", BStr "admin");
                              ("created_at", BTime 0);
                              ("updated_at", BTime 1)] |}, sample_backend))
    by (vm_compute; reflexivity).
  split; [exact Hrun|].
  exact (proj1 (admin_login_hides_password _ _ _ _ Hrun)).
Defined.

Lemma admin_login_rejects_unknown_credentials_witness :
  admin_collection sample_backend = Some [sample_admin]
  /\ admin_login {| al_email := "mechgenz4@gmail.com";
                    al_password := "guess" |} sample_backend
     = (Raise (HTTPException 401 "Invalid email or password"),
        sample_backend).
Proof.
  split; [reflexivity|].
  apply (admin_login_rejects_unknown_credentials _ [sample_admin]);
    [reflexivity|].
  intros admin [<-|[]] _. vm_compute. discriminate.
Defined.

Lemma update_admin_profile_wrong_current_password_witness :
  admin_collection sample_backend = Some [sample_admin]
  /\ exists b',
       update_admin_profile
         {| au_name := "Admin"; au_email := "mechgenz4@gmail.com";
            au_currentPassword := Some "guess";
            au_password := Some "hunter2" |} sample_backend
       = (Raise (HTTPException 400 "Current password is incorrect"), b')
       /\ admin_collection b' = Some [sample_admin].
Proof.
  split; [reflexivity|].
  apply (update_admin_profile_wrong_current_password _ [sample_admin]
           sample_admin sample_backend "hunter2" "guess" (BStr "mechgenz4"));
    first [ reflexivity | discriminate | (vm_compute; reflexivity) ].
Defined.

Lemma update_admin_profile_keeps_password_witness :
  admin_collection sample_backend = Some [sample_admin]
  /\ truthy (au_password password_without_current)
     && truthy (au_currentPassword password_without_current) = false
  /\ exists response b' l',
       update_admin_profile password_without_current sample_backend
       = (Return response, b')
       /\ admin_collection b' = Some l'
       /\ map (fun a => dict_get "password" (admin_fields a)) l'
          = [Some (BStr "mechgenz4")].
Proof.
  split; [reflexivity|]. split; [reflexivity|].
  assert (Hrun :
    update_admin_profile password_without_current sample_backend
    = (Return
         (match (update_admin_profile password_without_current
                   sample_backend).1 with
          | Return response => response
          | Raise _ => {| ar_success := false; ar_message := EmptyString;
                          ar_admin := [] |}
          end),
       (update_admin_profile password_without_current sample_backend).2))
    by (vm_compute; reflexivity).
  destruct (update_admin_profile_keeps_password password_without_current
              [sample_admin] sample_backend _ _ eq_refl eq_refl Hrun)
    as (l' & Hl' & Hpw & _).
  eexists _, _, l'. split; [exact Hrun|]. split; [exact Hl'|]. exact Hpw.
Defined.

Lemma update_admin_profile_then_login_witness :
  admin_collection sample_backend = Some [sample_admin]
  /\ exists response b' response',
       update_admin_profile
         {| au_name := "Admin"; au_email := "owner@example.org";
            au_currentPassword := Some "mechgenz4";
            au_password := Some "hunter2" |} sample_backend
       = (Return response, b')
       /\ admin_login {| al_email := "owner@example.org";
                         al_password := "hunter2" |} b'
          = (Return response', b').
Proof.
  split; [reflexivity|].
  apply (update_admin_profile_then_login
           {| au_name := "Admin"; au_email := "owner@example.org";
              au_currentPassword := Some "mechgenz4";
              au_password := Some "hunter2" |}
           [sample_admin] sample_admin sample_backend "hunter2" "mechgenz4");
    first [ reflexivity | discriminate | (vm_compute; reflexivity) ].
Defined.

Lemma update_admin_profile_email_change_locks_profile_witness :
  admin_collection sample_backend = Some [sample_admin]
  /\ au_email email_change <> ADMIN_EMAIL sample_backend
  /\ exists response b',
       update_admin_profile email_change sample_backend
       = (Return response, b')
       /\ get_admin_profile b'
          = (Raise (HTTPException 404 "Admin not found"), b').
Proof.
  assert (Hne : au_email email_change <> ADMIN_EMAIL sample_backend)
    by (vm_compute; discriminate).
  split; [reflexivity|]. split; [exact Hne|].
  assert (Hrun :
    update_admin_profile email_change sample_backend
    = (Return
         (match (update_admin_profile email_change sample_backend).1 with
          | Return response => response
          | Raise _ => {| ar_success := false; ar_message := EmptyString;
                          ar_admin := [] |}
          end),
       (update_admin_profile email_change sample_backend).2))
    by (vm_compute; reflexivity).
  eexists _, _. split; [exact Hrun|].
  exact (proj1 (update_admin_profile_email_change_locks_profile
                  email_change email_change sample_admin sample_backend
                  _ _ eq_refl Hne Hrun)).
Defined.

Lemma initialize_admin_creates_account_witness :
  admin_collection fresh_backend = Some []
  /\ exists b' response,
       initialize_admin "65f0a1b2c3d4e5f601234567" fresh_backend
       = (Return tt, b')
       /\ admin_login {| al_email := ADMIN_EMAIL fresh_backend;
                         al_password := ADMIN_PASSWORD fresh_backend |} b'
          = (Return response, b')
       /\ dict_get "role" (ar_admin response) = Some (BStr "admin")
       /\ dict_get "password" (ar_admin response) = None
       /\ forall other_id, initialize_admin other_id b' = (Return tt, b').
Proof.
  split; [reflexivity|].
  apply (initialize_admin_creates_account "65f0a1b2c3d4e5f601234567" []
           fresh_backend eq_refl eq_refl).
  intros a [].
Defined.

Lemma initialize_admin_is_safe_witness :
  (initialize_admin "65f0a1b2c3d4e5f6aaaaaaaa" sample_backend).1 = Return tt
  /\ (initialize_admin "65f0a1b2c3d4e5f6aaaaaaaa" sample_backend).2
     = sample_backend.
Proof.
  destruct (initialize_admin_is_safe "65f0a1b2c3d4e5f6aaaaaaaa"
              sample_backend) as (Hret & _ & Hsame).
  split; [exact Hret|].
  apply (Hsame [sample_admin] sample_admin eq_refl).
  vm_compute. reflexivity.
Defined.
